(** * Shape inference of nGraph's Broadcast and Squeeze operators and the
      CPU layout pass, as a shallow embedding of

      - src/ngraph/op/util/broadcast_base.cpp
      - src/ngraph/op/fused/squeeze.cpp
      - src/ngraph/runtime/cpu/pass/cpu_layout.cpp

    Conventions of the embedding:
    - a [size_t] dimension or axis is a [nat]; a [size_t] that results from
      mixed signed/unsigned arithmetic is a [Z] reduced modulo 2^64;
    - a thrown exception ([NODE_VALIDATION_CHECK], [NGRAPH_CHECK],
      [ngraph_error], [std::out_of_range] of [at]) is an [Err] of the
      result monad below;
    - [std::vector::operator[]] past the end reads whatever is in memory:
      it is modelled by a function [oob] giving the value read at each
      index, over which every statement is universally quantified. *)

From Stdlib Require Import ZArith Lia.
From stdpp Require Import base list gmap.

#[local] Set Warnings "-register-all".

Open Scope Z_scope.

(** ** Element types ([element::Type_t]) *)

Module element.
Inductive Type_t :=
| undefined | dynamic | boolean | bf16 | f16 | f32 | f64
| i8 | i16 | i32 | i64 | u1 | u8 | u16 | u32 | u64.

Definition is_real (t : Type_t) : bool :=
  match t with bf16 | f16 | f32 | f64 => true | _ => false end.

(** [Type::is_integral_number]: integral ([!is_real]) and not boolean. *)
Definition is_integral_number (t : Type_t) : bool :=
  negb (is_real t) && match t with boolean => false | _ => true end.
End element.

(** ** Dimensions and partial shapes *)

Inductive Dimension := Dim (n : nat) | DimDynamic.

Inductive PartialShape :=
| PShape (dims : list Dimension)
| PDynamic.

Abbreviation Shape := (list nat) (only parsing).

Definition dim_is_static (d : Dimension) : bool :=
  match d with Dim _ => true | DimDynamic => false end.

Definition is_static (ps : PartialShape) : bool :=
  match ps with PShape ds => forallb dim_is_static ds | PDynamic => false end.

Definition of_shape (s : Shape) : PartialShape := PShape (map Dim s).

(** [PartialShape::rank()]: a static length or a dynamic rank. *)
Definition rank (ps : PartialShape) : Dimension :=
  match ps with PShape ds => Dim (length ds) | PDynamic => DimDynamic end.

(** [Dimension::compatible]. *)
Definition dim_compatible (d : Dimension) (n : nat) : bool :=
  match d with Dim m => Nat.eqb m n | DimDynamic => true end.

(** [shape_size]: product of the dimensions. *)
Definition shape_size (s : Shape) : nat := fold_right Nat.mul 1%nat s.

(** ** Results: values or the exception that aborts the call *)

Inductive Error :=
| NodeValidationFailure   (* NODE_VALIDATION_CHECK *)
| NgraphCheckFailure      (* NGRAPH_CHECK *)
| NgraphError             (* throw ngraph_error / invalid_argument *)
| OutOfRange              (* std::vector::at, Node::input_value *)
| UndefinedBehaviour.     (* std::vector::erase past the end *)

Inductive Result (A : Type) := Ok (a : A) | Err (e : Error).
Arguments Ok {A} a.
Arguments Err {A} e.

Global Instance Result_ret : MRet Result := fun _ a => Ok a.
Global Instance Result_bind : MBind Result := fun _ _ f r =>
  match r with Ok a => f a | Err e => Err e end.

Definition check (b : bool) : Result unit :=
  if b then Ok tt else Err NodeValidationFailure.
Definition ngraph_check (b : bool) : Result unit :=
  if b then Ok tt else Err NgraphCheckFailure.

(** [PartialShape::to_shape] / [get_shape()]: fails on a dynamic shape. *)
Definition get_shape (ps : PartialShape) : Result Shape :=
  match ps with
  | PShape ds =>
      if forallb dim_is_static ds
      then Ok (map (fun d => match d with Dim n => n | DimDynamic => 0%nat end) ds)
      else Err NgraphError
  | PDynamic => Err NgraphError
  end.

(** [Dimension::get_length]. *)
Definition get_length (d : Dimension) : Result nat :=
  match d with Dim n => Ok n | DimDynamic => Err NgraphError end.

(** [std::vector::at] read and write. *)
Definition vec_at_checked {A} (v : list A) (i : nat) : Result A :=
  match v !! i with Some x => Ok x | None => Err OutOfRange end.

Definition vec_set_checked {A} (v : list A) (i : nat) (x : A) : Result (list A) :=
  if Nat.ltb i (length v) then Ok (<[i := x]> v) else Err OutOfRange.

(** ** Producers of a node's inputs

    The operators inspect the node that produces an input
    ([as_type_ptr<op::v0::Constant>], [as_type_ptr<op::v0::Concat>]); any
    other producer is only seen through its element type and partial shape. *)

Inductive Producer :=
| Constant (et : element.Type_t) (shape : Shape) (vals : list Z)
| Concat (et : element.Type_t) (out : PartialShape) (args : list Producer)
| OtherOp (et : element.Type_t) (out : PartialShape).

Definition producer_et (p : Producer) : element.Type_t :=
  match p with Constant et _ _ | Concat et _ _ | OtherOp et _ => et end.

Definition producer_pshape (p : Producer) : PartialShape :=
  match p with
  | Constant _ s _ => of_shape s
  | Concat _ out _ => out
  | OtherOp _ out => out
  end.

(** [Constant::get_shape_val] and [Constant::get_axis_vector_val] read the
    integer values as [size_t]; negative values read as 0. *)
Definition get_shape_val (vals : list Z) : Shape := map Z.to_nat vals.
Definition get_axis_vector_val (vals : list Z) : list nat := map Z.to_nat vals.

(** ** Broadcast *)

(** [op::BroadcastType]; [NONE] is also spelled [EXPLICIT]. *)
Inductive BroadcastType := NONE | NUMPY | PDPD | BIDIRECTIONAL.

Record BroadcastModeSpec := { m_type : BroadcastType; m_axis : Z (* int64_t *) }.

(** A [BroadcastBase] node: inputs 0 and 1, input 2 only for the
    three-input constructor, and the mode. *)
Record BroadcastBase := {
  bc_arg : Producer;
  bc_target_shape : Producer;
  bc_axes_mapping : option Producer;
  bc_mode : BroadcastModeSpec }.

Definition input2 (n : BroadcastBase) : Result Producer :=
  match bc_axes_mapping n with Some p => Ok p | None => Err OutOfRange end.

Definition is_numpy_or_pdpd (t : BroadcastType) : bool :=
  match t with NUMPY | PDPD => true | _ => false end.

Definition size_t_of (z : Z) : Z := z mod 2 ^ 64.

(** [auto start_axis = PDPD ? m_axis : target.size() - arg.size()]: the
    conditional has type [size_t] (int64_t and size_t convert to size_t). *)
Definition start_axis (mode : BroadcastModeSpec) (target_rank arg_rank : nat) : Z :=
  match m_type mode with
  | PDPD => size_t_of (m_axis mode)
  | _ => size_t_of (Z.of_nat target_rank - Z.of_nat arg_rank)
  end.

(** [std::is_sorted]: no element smaller than its predecessor. *)
Fixpoint is_sorted (l : list nat) : bool :=
  match l with
  | x :: ((y :: _) as t) => Nat.leb x y && is_sorted t
  | _ => true
  end.

Section Broadcast.

(** Value read by [std::vector<size_t>::operator[]] at an index past the end. *)
Variable oob : nat -> nat.

Definition vec_at (v : list nat) (i : nat) : nat :=
match v !! i with Some x => x | None => oob i end.

(** Lines 87-109: a target shape read from a [Concat] of scalars. *)
Definition concat_dim (p : Producer) : Dimension :=
match p with
| Constant _ _ vals => Dim (vec_at (get_axis_vector_val vals) 0)
| _ => DimDynamic
end.

Definition initial_result_shape (target : Producer) : PartialShape :=
match target with
| Constant _ _ vals => of_shape (get_shape_val vals)
| Concat _ out args =>
    match get_shape out with
    | Ok s =>
        if is_static out && Nat.eqb (length s) 1 && Nat.eqb (length args) (shape_size s)
        then PShape (map concat_dim args)
        else PDynamic
    | Err _ => PDynamic
    end
| OtherOp _ _ => PDynamic
end.

(** Lines 142-162: the loop over the axes mapping. *)
Fixpoint explicit_loop (arg_shape target : Shape) (i : nat) (am : list nat) : Result unit :=
match am with
| [] => Ok tt
| a :: am' =>
    check (Nat.ltb a (length target)) ;;
    check (Nat.eqb (vec_at target a) (vec_at arg_shape i)) ;;
    explicit_loop arg_shape target (S i) am'
end.

(** Lines 184-195: the loop over the aligned positions, [i] running over
  [idx] and [result_shape[i]] updated in place. *)
Fixpoint numpy_loop (arg_shape target : Shape) (start : Z) (idx : list nat)
(res : list Dimension) : Result (list Dimension) :=
match idx with
| [] => Ok res
| i :: idx' =>
    let a := vec_at arg_shape (Z.to_nat (Z.of_nat i - start)) in
    let t := vec_at target i in
    check (Nat.eqb a 1 || Nat.eqb t 1 || Nat.eqb a t) ;;
    numpy_loop arg_shape target start idx' (<[i := Dim (Nat.max a t)]> res)
end.

(** [for (auto i = start_axis; i < target_shape.size(); i++)]. *)
Definition loop_range (start : Z) (n : nat) : list nat :=
if start <? Z.of_nat n then seq (Z.to_nat start) (n - Z.to_nat start) else [].

(** [BroadcastBase::validate_and_infer_types]: the element type and partial
  shape given to output 0. *)
Definition validate_and_infer_types (n : BroadcastBase)
: Result (element.Type_t * PartialShape) :=
let mode := bc_mode n in
check (element.is_integral_number (producer_et (bc_target_shape n))) ;;
check (dim_compatible (rank (producer_pshape (bc_target_shape n))) 1) ;;
(match m_type mode with
 | NONE =>
     p2 ← input2 n;
     check (element.is_integral_number (producer_et p2)) ;;
     check (dim_compatible (rank (producer_pshape p2)) 1)
 | _ => Ok tt
 end) ;;
let result_shape := initial_result_shape (bc_target_shape n) in
let ps0 := producer_pshape (bc_arg n) in
let ps1 := producer_pshape (bc_target_shape n) in
result_shape ←
  match m_type mode with
  | NONE =>
      p2 ← input2 n;
      if is_static ps0 && is_static ps1 && is_static (producer_pshape p2) then
        arg_shape ← get_shape ps0;
        axes_shape ← get_shape (producer_pshape p2);
        check (Nat.eqb (shape_size axes_shape) (length arg_shape)) ;;
        match bc_target_shape n, p2 with
        | Constant _ _ tvals, Constant _ _ avals =>
            let target := get_shape_val tvals in
            let am := get_axis_vector_val avals in
            check (is_sorted am) ;;
            explicit_loop arg_shape target 0 am ;;
            Ok result_shape
        | _, _ => Ok result_shape
        end
      else Ok result_shape
  | NUMPY | PDPD =>
      if is_static ps0 && is_static ps1 then
        arg_shape ← get_shape ps0;
        match bc_target_shape n with
        | Constant _ _ tvals =>
            let target := get_shape_val tvals in
            let start := start_axis mode (length target) (length arg_shape) in
            check (0 <=? start) ;;
            dims ← numpy_loop arg_shape target start
                     (loop_range start (length target)) (map Dim target);
            Ok (PShape dims)
        | _ => Ok result_shape
        end
      else Ok result_shape
  | BIDIRECTIONAL => Ok result_shape
  end;
Ok (producer_et (bc_arg n), result_shape).

(** ** Broadcast axes *)

(** [axes.erase(axes.begin() + k)]; erasing at or past [end()] is undefined. *)
Definition erase_at (v : list nat) (k : nat) : Result (list nat) :=
if Nat.ltb k (length v) then Ok (take k v ++ drop (S k) v) else Err UndefinedBehaviour.

(** Lines 219-222: erase the mapped positions, last mapping entry first. *)
Fixpoint erase_mapped (axes : list nat) (rev_am : list nat) : Result (list nat) :=
match rev_am with
| [] => Ok axes
| k :: rest => axes' ← erase_at axes k; erase_mapped axes' rest
end.

(** Lines 237-243: [i] runs over [idx]; an axis is inserted when it lies
  before the start axis or its dimension differs from the aligned one. *)
Fixpoint numpy_axes_loop (arg_shape result_shape : Shape) (start : Z) (idx : list nat)
(acc : gset nat) : gset nat :=
match idx with
| [] => acc
| i :: idx' =>
    let acc' :=
      if (Z.of_nat i <? start)
         || negb (Nat.eqb (vec_at result_shape i)
                          (vec_at arg_shape (Z.to_nat (Z.of_nat i - start))))
      then {[ i ]} ∪ acc else acc in
    numpy_axes_loop arg_shape result_shape start idx' acc'
end.

(** [BroadcastBase::get_broadcast_axes], reading the node's inputs and the
  partial shape [out] inferred for its output 0. *)
Definition get_broadcast_axes (n : BroadcastBase) (out : PartialShape)
: Result (bool * gset nat) :=
let mode := bc_mode n in
match m_type mode with
| NONE =>
    p2 ← input2 n;
    match p2 with
    | Constant _ _ avals =>
        if is_static (producer_pshape (bc_target_shape n)) then
          target_shape ← get_shape (producer_pshape (bc_target_shape n));
          ngraph_check (Nat.eqb (length target_shape) 1) ;;
          let am := get_axis_vector_val avals in
          axes ← erase_mapped (seq 0 (vec_at target_shape 0)) (rev am);
          Ok (true, list_to_set axes)
        else Ok (false, ∅)
    | _ => Ok (false, ∅)
    end
| NUMPY | PDPD =>
    if is_static (producer_pshape (bc_arg n)) && is_static out then
      arg_shape ← get_shape (producer_pshape (bc_arg n));
      result_shape ← get_shape out;
      let start := start_axis mode (length result_shape) (length arg_shape) in
      ngraph_check (0 <=? start) ;;
      Ok (true, numpy_axes_loop arg_shape result_shape start
                  (seq 0 (length result_shape)) ∅)
    else Ok (false, ∅)
| BIDIRECTIONAL => Err NgraphError
end.

(** ** Evaluation *)

(** A host tensor as [evaluate_broadcast] sees it. *)
Record HostTensor := { ht_et : element.Type_t; ht_shape : Shape }.

(** One call of the reference kernel [runtime::reference::broadcast<T>],
  recorded with the element type tag of its instantiation. *)
Record KernelCall := {
kc_et : element.Type_t;
kc_arg_shape : Shape;
kc_out_shape : Shape;
kc_axes : gset nat }.

(** The effects of evaluation: the output tensor and the kernel calls made. *)
Record EvalState := { es_out : HostTensor; es_calls : list KernelCall }.

(** The instantiations listed by the [TYPE_CASE]s of lines 303-327. *)
Definition supported_type (t : element.Type_t) : bool :=
match t with
| element.boolean | element.i8 | element.i16 | element.i32 | element.i64
| element.u8 | element.u16 | element.u32 | element.u64
| element.bf16 | element.f16 | element.f32 | element.f64 => true
| _ => false
end.

(** [out->set_shape(output_shape)]. *)
Definition set_shape (st : EvalState) (s : Shape) : EvalState :=
{| es_out := {| ht_et := ht_et (es_out st); ht_shape := s |};
   es_calls := es_calls st |}.

(** [evaluate<ET>]: one call of the kernel; returns true. *)
Definition evaluate_kernel (arg0 : HostTensor) (axes : gset nat) (st : EvalState)
: bool * EvalState :=
(true, {| es_out := es_out st;
          es_calls := es_calls st ++
            [{| kc_et := ht_et arg0; kc_arg_shape := ht_shape arg0;
                kc_out_shape := ht_shape (es_out st); kc_axes := axes |}] |}).

(** [evaluate_broadcast] (lines 288-332). *)
Definition evaluate_broadcast (arg0 : HostTensor) (pair_broadcast_axes : bool * gset nat)
(output_shape : Shape) (st : EvalState) : bool * EvalState :=
if negb pair_broadcast_axes.1 then (false, st)
else
  let st1 := set_shape st output_shape in
  if supported_type (ht_et arg0)
  then evaluate_kernel arg0 pair_broadcast_axes.2 st1
  else (false, st1).

(** [BroadcastBase::evaluate] (lines 335-339): both [get_broadcast_axes()]
  and [get_output_shape(0)] are evaluated before [evaluate_broadcast] is
  entered; [get_output_shape] throws on a dynamic output shape. *)
Definition evaluate (n : BroadcastBase) (out : PartialShape) (arg0 : HostTensor)
(st : EvalState) : Result (bool * EvalState) :=
axes ← get_broadcast_axes n out;
output_shape ← get_shape out;
Ok (evaluate_broadcast arg0 axes output_shape st).

(** ** Autodiff *)

(** The call [adjoints.add_delta(x, make_shared<op::Sum>(delta, axes))]:
    the argument [x] receives the sum of [delta] over [axes]. *)
Record AddDelta (D : Type) := {
  ad_x : Producer;
  ad_delta : D;
  ad_sum_axes : gset nat }.

(** [BroadcastBase::generate_adjoints] (lines 255-270): the [add_delta] call
    it makes. [deltas.at(0)] throws on an empty list. *)
Definition generate_adjoints {D : Type} (n : BroadcastBase) (out : PartialShape)
  (deltas : list D) : Result (AddDelta D) :=
  delta ← vec_at_checked deltas 0%nat;
  let x := bc_arg n in
  get_broadcast_axes n out ≫= fun '((known, axes) : bool * gset nat) =>
  if known then Ok (Build_AddDelta D x delta axes) else Err NgraphError.

End Broadcast.

(** ** Squeeze *)

(** A [Squeeze] node: its data and axes inputs. *)
Record Squeeze := { sq_data : Producer; sq_axes : Producer }.

(** [axes_constant->cast_vector<int64_t>()] for a [Constant] axes input. *)
Definition axes_constant (n : Squeeze) : option (list Z) :=
  match sq_axes n with Constant _ _ vals => Some vals | _ => None end.

(** Modelled from the spec: [normalize_axes] (validation_util.cpp, not part
    of src/). Each axis is resolved against the rank: a negative index
    counts from the end; an index outside [-rank, rank) is rejected. *)
Definition normalize_axis (r : nat) (a : Z) : Result nat :=
  if (- Z.of_nat r <=? a) && (a <? Z.of_nat r)
  then Ok (Z.to_nat (if a <? 0 then a + Z.of_nat r else a))
  else Err NgraphCheckFailure.

Fixpoint normalize_axes (axes : list Z) (r : nat) : Result (list nat) :=
  match axes with
  | [] => Ok []
  | a :: rest => x ← normalize_axis r a; xs ← normalize_axes rest r; Ok (x :: xs)
  end.

(** Lines 106-112: the positions, among [idx], of the dimensions equal to 1. *)
Fixpoint unit_axes (data_shape : Shape) (idx : list nat) : Result (list nat) :=
  match idx with
  | [] => Ok []
  | i :: rest =>
      d ← vec_at_checked data_shape i;
      axes ← unit_axes data_shape rest;
      Ok (if Nat.eqb d 1 then i :: axes else axes)
  end.

(** [Squeeze::get_axes]. *)
Definition get_axes (n : Squeeze) : Result (list nat) :=
  let ps := producer_pshape (sq_data n) in
  data_rank_val ← get_length (rank ps);
  match axes_constant n with
  | None => Err NgraphError
  | Some [] =>
      data_shape ← get_shape ps;
      unit_axes data_shape (seq 0 data_rank_val)
  | Some vals => normalize_axes vals data_rank_val
  end.

(** [std::set<size_t, std::greater<size_t>>]: distinct elements, largest
    first. *)
Fixpoint set_insert_desc (x : nat) (l : list nat) : list nat :=
  match l with
  | [] => [x]
  | y :: l' =>
      if Nat.eqb x y then l
      else if Nat.ltb y x then x :: l
      else y :: set_insert_desc x l'
  end.

Definition set_greater (l : list nat) : list nat := fold_right set_insert_desc [] l.


(** Lines 64-75: validate each axis and mark it in [axes_to_squeeze]. *)
Fixpoint mark_axes (data_has_dynamic_shape : bool) (ps : PartialShape)
  (unique_axes : list nat) (axes_to_squeeze : list nat) : Result (list nat) :=
  match unique_axes with
  | [] => Ok axes_to_squeeze
  | axis :: rest =>
      (if negb data_has_dynamic_shape then
         data_shape ← get_shape ps;
         d ← vec_at_checked data_shape axis;
         check (Nat.eqb d 1)
       else Ok tt) ;;
      ats ← vec_set_checked axes_to_squeeze axis 1%nat;
      mark_axes data_has_dynamic_shape ps rest ats
  end.

(** Lines 77-84: [idx] runs over the positions; the dimensions whose mark
    is 0 are kept, in order. *)
Fixpoint squeezed_dims (dims : list Dimension) (axes_to_squeeze : list nat)
  (idx : list nat) : Result (list Dimension) :=
  match idx with
  | [] => Ok []
  | i :: rest =>
      m ← vec_at_checked axes_to_squeeze i;
      kept ← (if Nat.eqb m 0 then d ← vec_at_checked dims i; Ok [d] else Ok []);
      out ← squeezed_dims dims axes_to_squeeze rest;
      Ok (kept ++ out)
  end.

(** [Squeeze::pre_validate_and_infer_types]: the element type and partial
    shape given to output 0. *)
Definition pre_validate_and_infer_types (n : Squeeze)
  : Result (element.Type_t * PartialShape) :=
  let ps := producer_pshape (sq_data n) in
  let et := producer_et (sq_data n) in
  let data_has_dynamic_rank := negb (dim_is_static (rank ps)) in
  let data_has_dynamic_shape := negb (is_static ps) in
  let axes_is_empty_constant :=
    match axes_constant n with Some vals => bool_decide (vals = []) | None => false end in
  if data_has_dynamic_rank || negb (bool_decide (is_Some (axes_constant n)))
     || (data_has_dynamic_shape && axes_is_empty_constant)
  then Ok (et, PDynamic)
  else
    data_rank ← get_length (rank ps);
    axes ← get_axes n;
    axes_to_squeeze ← mark_axes data_has_dynamic_shape ps (set_greater axes)
                        (replicate data_rank 0%nat);
    dims ← match ps with PShape ds => Ok ds | PDynamic => Err NgraphError end;
    output_data_shape ← squeezed_dims dims axes_to_squeeze (seq 0 data_rank);
    Ok (et, PShape output_data_shape).

(** Primitive nodes produced by decomposition. *)
Inductive PrimNode :=
| Reshape (arg : Producer) (input_order : list nat) (output_shape : Shape).

(** [get_default_order(n)]: the identity order [0, ..., n-1]. *)
Definition get_default_order (n : nat) : list nat := seq 0 n.

(** [Squeeze::decompose_op], with [out] the partial shape inferred for
    output 0. *)
Definition decompose_op (n : Squeeze) (out : PartialShape) : Result (list PrimNode) :=
  check (is_static out) ;;
  data_shape ← get_shape (producer_pshape (sq_data n));
  output_data_shape ← get_shape out;
  Ok [Reshape (sq_data n) (get_default_order (length data_shape)) output_data_shape].

(** ** CPU layout pass *)

Module CPULayout.

(** An output tensor view, identified by [tv_id]. *)
Record TensorView := { tv_id : nat; tv_shape : Shape }.

(** A node of the call graph: its output tensor views, by slot. *)
Record Node := { node_outputs : list TensorView }.

Section Pass.

(** The descriptor built by the [LayoutDescriptor] constructor for an output that
  has none; the pass only depends on it being a function of the tensor. *)
Context {Layout : Type} (LayoutDescriptor : TensorView -> Layout).

(** Lines 168-182 for one node: the layouts attached so far, keyed by
  tensor; an output that has one is skipped ([continue]). *)
Fixpoint layout_outputs (tvs : list TensorView) (layouts : gmap nat Layout)
: gmap nat Layout :=
match tvs with
| [] => layouts
| tv :: rest =>
    match layouts !! tv_id tv with
    | Some _ => layout_outputs rest layouts
    | None => layout_outputs rest (<[tv_id tv := LayoutDescriptor tv]> layouts)
    end
end.

(** [CPULayout::run_on_call_graph]: the result and the layouts after it. *)
Definition run_on_call_graph (nodes : list Node) (layouts : gmap nat Layout)
: bool * gmap nat Layout :=
(false, fold_left (fun ls nd => layout_outputs (node_outputs nd) ls) nodes layouts).

End Pass.

End CPULayout.

(** * Properties *)

(** ** Concrete nodes used below *)

Definition f32_param (s : list Dimension) : Producer := OtherOp element.f32 (PShape s).

Definition i64_const (vals : list Z) : Producer :=
  Constant element.i64 [length vals] vals.

Definition broadcast_node (t : BroadcastType) (axis : Z) (a : Producer) (target : Producer)
  (am : option Producer) : BroadcastBase :=
  {| bc_arg := a; bc_target_shape := target; bc_axes_mapping := am;
     bc_mode := {| m_type := t; m_axis := axis |} |}.

Definition squeeze_node (d : list Dimension) (axes : list Z) : Squeeze :=
  {| sq_data := f32_param d; sq_axes := i64_const axes |}.

(** Orders, shapes and states the statements below refer to. *)

(** Strictly increasing, as the spec asks of an axes mapping. *)
Fixpoint strictly_increasing (l : list nat) : bool :=
  match l with
  | x :: ((y :: _) as t) => Nat.ltb x y && strictly_increasing t
  | _ => true
  end.

(** The dimensions of [s] at the positions not in [axes], in order. *)
Definition kept_dims (s : Shape) (axes : list nat) : Shape :=
  omap (fun i => if bool_decide (i ∈ axes) then None else s !! i) (seq 0 (length s)).

(** The elements of [l] at the positions not in [axes], in order. *)
Definition kept_positions {A} (l : list A) (axes : list nat) : list A :=
  omap (fun i => if bool_decide (i ∈ axes) then None else l !! i) (seq 0 (length l)).

(** The first output, in node order then slot order, with tensor id [k]. *)
Definition first_output_with_id (k : nat) (nodes : list CPULayout.Node)
  : option CPULayout.TensorView :=
  find (fun tv => Nat.eqb (CPULayout.tv_id tv) k) (concat (map CPULayout.node_outputs nodes)).

(** An empty output tensor. *)
Definition eval_state0 : EvalState :=
  {| es_out := {| ht_et := element.f32; ht_shape := [] |}; es_calls := [] |}.

(** One of the two dimensions is 1, or they are equal. *)
Definition dims_compatible (x y : nat) : bool := Nat.eqb x 1 || Nat.eqb y 1 || Nat.eqb x y.

(** The start axis of the spec, as a natural number: the configured axis
    (PDPD) or target rank minus argument rank (NUMPY). *)
Definition aligned_start (mode : BroadcastModeSpec) (tr ar : nat) : nat :=
  match m_type mode with
  | PDPD => Z.to_nat (m_axis mode)
  | _ => (tr - ar)%nat
  end.

(** The start axis is a valid non-negative number: a non-negative [int64_t]
    axis (PDPD), or a target rank, below 2^64, at least the argument rank
    (NUMPY). *)
Definition start_valid (mode : BroadcastModeSpec) (tr ar : nat) : Prop :=
  match m_type mode with
  | PDPD => 0 <= m_axis mode < 2 ^ 63
  | _ => (ar <= tr)%nat /\ Z.of_nat tr < 2 ^ 64
  end.

(** The start axis as the spec states it, a signed number: target rank
    minus argument rank (NUMPY), or the configured axis (PDPD). *)
Definition spec_start_axis (mode : BroadcastModeSpec) (tr ar : nat) : Z :=
  match m_type mode with
  | PDPD => m_axis mode
  | _ => Z.of_nat tr - Z.of_nat ar
  end.

(** The spec's broadcast axes for argument shape [a] and output shape [r]:
    output axis [i] lies before the start axis, or its dimension differs
    from the aligned argument dimension (read at [i - start]). *)
Definition spec_broadcast_axis (oob : nat -> nat) (mode : BroadcastModeSpec) (a r : Shape)
  (i : nat) : Prop :=
  let s := spec_start_axis mode (length r) (length a) in
  (i < length r)%nat /\
  (Z.of_nat i < s \/ vec_at oob r i <> vec_at oob a (Z.to_nat (Z.of_nat i - s))).

(** ** Broadcast, NUMPY and PDPD start axis *)

(** C1 (code_bug): NUMPY Broadcast of an argument of shape {2,3} to the
    constant target shape {3}. The target has smaller rank than the
    argument, but [start_axis] is a [size_t]: [1 - 2] wraps to [2^64 - 1],
    the check [start_axis >= 0] holds, the loop runs no iteration, and
    validation succeeds with output shape {3}. *)
Lemma C1_numpy_smaller_target_rank_accepted (oob : nat -> nat) :
  start_axis {| m_type := NUMPY; m_axis := 0 |} 1 2 = 2 ^ 64 - 1 /\
  validate_and_infer_types oob
    (broadcast_node NUMPY 0 (f32_param [Dim 2; Dim 3]) (i64_const [3]) None)
  = Ok (element.f32, PShape [Dim 3]).
Proof. split; reflexivity. Qed.

(** ** Broadcast, EXPLICIT axes mapping *)

Lemma is_static_of_shape (s : Shape) : is_static (of_shape s) = true.
Proof. induction s as [|d s IH]; [reflexivity|exact IH]. Qed.

Lemma get_shape_of_shape (s : Shape) : get_shape (of_shape s) = Ok s.
Proof.
  pose proof (is_static_of_shape s) as H. unfold is_static, of_shape in *.
  cbn. rewrite H. f_equal. rewrite map_map. apply map_id.
Qed.

Lemma get_shape_static (ps : PartialShape) (s : Shape) :
  get_shape ps = Ok s -> ps = of_shape s.
Proof.
  destruct ps as [ds|]; cbn; [|discriminate].
  destruct (forallb dim_is_static ds) eqn:H; [|discriminate]. intros [= <-].
  unfold of_shape. f_equal. rewrite map_map.
  induction ds as [|d ds IH]; [reflexivity|]. cbn in *.
  apply andb_prop in H as [Hd Hds]. destruct d; [|discriminate].
  f_equal. exact (IH Hds).
Qed.

Lemma bind_Err {A B} (e : Error) (f : A -> Result B) : (Err e ≫= f) = Err e.
Proof. reflexivity. Qed.

Lemma bind_Ok {A B} (a : A) (f : A -> Result B) : (Ok a ≫= f) = f a.
Proof. reflexivity. Qed.

(** C2 (code_bug): EXPLICIT Broadcast of an argument {3,3} to the constant
    target {2,3} with the constant axes mapping {1,1}. The mapping is not
    strictly increasing, yet validation succeeds with {2,3}:
    [std::is_sorted] accepts the repeated value and both entries map to the
    target dimension 3. On the node so validated, [get_broadcast_axes]
    erases index 1 twice from [0,1], the second time at [end()], which is
    undefined; [evaluate] goes through it. The raw mapping {0,-1}, not even
    sorted, is read as {0,0} and is accepted as well. *)
Theorem C2_repeated_axes_mapping_erase_past_end (oob : nat -> nat) :
  strictly_increasing (get_axis_vector_val [1; 1]) = false /\
  validate_and_infer_types oob
    (broadcast_node NONE 0 (f32_param [Dim 3; Dim 3]) (i64_const [2; 3])
       (Some (i64_const [1; 1])))
  = Ok (element.f32, PShape [Dim 2; Dim 3]) /\
  get_broadcast_axes oob
    (broadcast_node NONE 0 (f32_param [Dim 3; Dim 3]) (i64_const [2; 3])
       (Some (i64_const [1; 1])))
    (PShape [Dim 2; Dim 3]) = Err UndefinedBehaviour /\
  evaluate oob
    (broadcast_node NONE 0 (f32_param [Dim 3; Dim 3]) (i64_const [2; 3])
       (Some (i64_const [1; 1])))
    (PShape [Dim 2; Dim 3]) {| ht_et := element.f32; ht_shape := [3%nat; 3%nat] |} eval_state0
  = Err UndefinedBehaviour /\
  validate_and_infer_types oob
    (broadcast_node NONE 0 (f32_param [Dim 3; Dim 3]) (i64_const [3; 2])
       (Some (i64_const [0; -1])))
  = Ok (element.f32, PShape [Dim 3; Dim 2]).
Proof. repeat split; reflexivity. Qed.

(** For every EXPLICIT Broadcast whose target shape and axes mapping are
    constants and whose argument shape is static, validation fails whenever
    the axes mapping, read as [size_t] values (negative values as 0), is not
    sorted in non-decreasing order. *)
Theorem explicit_unsorted_mapping_rejected (oob : nat -> nat) (n : BroadcastBase)
  (et1 et2 : element.Type_t) (s1 s2 : Shape) (tvals avals : list Z) :
  m_type (bc_mode n) = NONE ->
  bc_target_shape n = Constant et1 s1 tvals ->
  bc_axes_mapping n = Some (Constant et2 s2 avals) ->
  is_static (producer_pshape (bc_arg n)) = true ->
  is_sorted (get_axis_vector_val avals) = false ->
  exists e, validate_and_infer_types oob n = Err e.
Proof.
  intros Hmode Ht Ham Hstatic Hsorted.
  unfold validate_and_infer_types, input2, check, mbind, Result_bind.
  rewrite Hmode, Ht, Ham, Hstatic; cbn [producer_pshape producer_et].
  rewrite !is_static_of_shape, !get_shape_of_shape.
  repeat (case_match; simplify_eq; try (eexists; reflexivity)).
Qed.

(** ** Squeeze: the axes removed *)

Lemma rank_of_shape (s : Shape) : rank (of_shape s) = Dim (length s).
Proof. unfold rank, of_shape. rewrite length_map. reflexivity. Qed.

Lemma set_insert_desc_elem (x y : nat) (l : list nat) :
  y ∈ set_insert_desc x l <-> y = x \/ y ∈ l.
Proof.
  induction l as [|z l IH]; cbn [set_insert_desc].
  - rewrite list_elem_of_singleton, elem_of_nil. tauto.
  - destruct (Nat.eqb_spec x z) as [->|Hne]; [rewrite elem_of_cons; tauto|].
    destruct (Nat.ltb z x); rewrite ?elem_of_cons, ?IH; tauto.
Qed.

Lemma set_greater_elem (y : nat) (l : list nat) : y ∈ set_greater l <-> y ∈ l.
Proof.
  induction l as [|x l IH]; cbn; [set_solver|].
  rewrite set_insert_desc_elem, IH, elem_of_cons. tauto.
Qed.

Lemma normalize_axis_lt (r : nat) (v : Z) (a : nat) :
  normalize_axis r v = Ok a -> (a < r)%nat.
Proof.
  unfold normalize_axis.
  destruct (- Z.of_nat r <=? v) eqn:H1, (v <? Z.of_nat r) eqn:H2; cbn; try discriminate.
  apply Z.leb_le in H1. apply Z.ltb_lt in H2. intros [= <-].
  destruct (v <? 0) eqn:H3; [apply Z.ltb_lt in H3|apply Z.ltb_ge in H3]; lia.
Qed.

Lemma normalize_axes_lt (vals : list Z) (r : nat) (axes : list nat) :
  normalize_axes vals r = Ok axes -> forall a, a ∈ axes -> (a < r)%nat.
Proof.
  revert axes; induction vals as [|v vals IH]; intros axes; cbn.
  - intros [= <-] a Ha. set_solver.
  - destruct (normalize_axis r v) as [x|] eqn:Hx; cbn; [|discriminate].
    destruct (normalize_axes vals r) as [xs|]; cbn; [|discriminate].
    intros [= <-] a Ha. apply elem_of_cons in Ha as [->|Ha].
    + exact (normalize_axis_lt _ _ _ Hx).
    + exact (IH xs eq_refl a Ha).
Qed.

Lemma normalize_axes_elem (vals : list Z) (r : nat) (axes : list nat) (v : Z) (a : nat) :
  normalize_axes vals r = Ok axes -> v ∈ vals -> normalize_axis r v = Ok a -> a ∈ axes.
Proof.
  revert axes; induction vals as [|w vals IH]; intros axes; cbn.
  - intros _ Hv. set_solver.
  - destruct (normalize_axis r w) as [x|] eqn:Hx; cbn; [|discriminate].
    destruct (normalize_axes vals r) as [xs|]; cbn; [|discriminate].
    intros [= <-] Hv Ha. apply elem_of_cons in Hv as [->|Hv].
    + rewrite Hx in Ha. injection Ha as ->. apply elem_of_cons; left; reflexivity.
    + apply elem_of_cons; right. exact (IH xs eq_refl Hv Ha).
Qed.

(** With a static data shape, [mark_axes] fails as soon as one of the axes
    names a dimension other than 1. *)
Lemma mark_axes_non_unit (ps : PartialShape) (s : Shape) (ul ats : list nat) (a d : nat) :
  get_shape ps = Ok s -> a ∈ ul -> s !! a = Some d -> d <> 1%nat ->
  exists e, mark_axes false ps ul ats = Err e.
Proof.
  intros Hs. revert ats; induction ul as [|x ul IH]; intros ats Ha Hsa Hd;
    [set_solver|].
  cbn [mark_axes negb]. rewrite Hs.
  unfold mbind, Result_bind, vec_at_checked, check, vec_set_checked.
  apply elem_of_cons in Ha as [->|Ha].
  - rewrite Hsa. destruct (Nat.eqb_spec d 1); [contradiction|].
    eexists; reflexivity.
  - destruct (s !! x) as [dx|]; [|eexists; reflexivity].
    destruct (Nat.eqb dx 1); [|eexists; reflexivity].
    destruct (Nat.ltb x (length ats)); [|eexists; reflexivity].
    exact (IH _ Ha Hsa Hd).
Qed.

(** C3 (counterexample): Squeeze of data of shape {2,?,1} by the constant
    axes {0}. The removed axis has the static size 2, yet inference
    succeeds with {?,1}: the size check of line 66 runs only when the whole
    data shape is static. *)
Lemma C3_partially_dynamic_data_not_checked :
  pre_validate_and_infer_types (squeeze_node [Dim 2; DimDynamic; Dim 1] [0])
  = Ok (element.f32, PShape [DimDynamic; Dim 1]).
Proof. reflexivity. Qed.

(** C3 (amended): for every Squeeze with a constant non-empty axes list and
    a fully static data shape, inference fails whenever one of the axes
    (normalized against the rank) names a dimension other than 1; in
    particular for data {2,1,3} the axes {0} fail and the axes {1} give
    {2,3}. *)
Theorem C3_static_non_unit_axis_rejected :
  (forall (n : Squeeze) (s : Shape) (vals : list Z) (v : Z) (a d : nat),
     producer_pshape (sq_data n) = of_shape s ->
     axes_constant n = Some vals -> vals <> [] ->
     v ∈ vals -> normalize_axis (length s) v = Ok a ->
     s !! a = Some d -> d <> 1%nat ->
     exists e, pre_validate_and_infer_types n = Err e) /\
  pre_validate_and_infer_types (squeeze_node [Dim 2; Dim 1; Dim 3] [0])
    = Err NodeValidationFailure /\
  pre_validate_and_infer_types (squeeze_node [Dim 2; Dim 1; Dim 3] [1])
    = Ok (element.f32, PShape [Dim 2; Dim 3]).
Proof.
  split; [|split; reflexivity].
  intros n s vals v a d Hps Hax Hne Hv Ha Hsa Hd.
  unfold pre_validate_and_infer_types, get_axes.
  rewrite Hps, Hax, rank_of_shape, is_static_of_shape. cbn [dim_is_static negb orb andb].
  destruct vals as [|v0 vals']; [congruence|].
  replace (bool_decide (v0 :: vals' = [])) with false by (symmetry; apply bool_decide_eq_false; congruence).
  cbn [orb andb bool_decide is_Some]. rewrite bool_decide_eq_true_2 by (eexists; reflexivity).
  cbn [negb orb]. unfold mbind, Result_bind, get_length.
  destruct (normalize_axes (v0 :: vals') (length s)) as [axes|e] eqn:Hn;
    [|eexists; reflexivity].
  assert (Hin : a ∈ set_greater axes)
    by (apply set_greater_elem; exact (normalize_axes_elem _ _ _ _ _ Hn Hv Ha)).
  destruct (mark_axes_non_unit (of_shape s) s (set_greater axes) (replicate (length s) 0%nat) a d
              (get_shape_of_shape s) Hin Hsa Hd) as [e He].
  change (mark_axes (negb true) (of_shape s) (set_greater axes) (replicate (length s) 0%nat))
    with (mark_axes false (of_shape s) (set_greater axes) (replicate (length s) 0%nat)).
  rewrite He. eexists; reflexivity.
Qed.

(** ** Squeeze: the output shape *)

Definition mark_all (ats ul : list nat) : list nat := foldl (fun v a => <[a := 1%nat]> v) ats ul.

Lemma length_mark_all (ats ul : list nat) : length (mark_all ats ul) = length ats.
Proof.
  unfold mark_all. revert ats; induction ul as [|a ul IH]; intros ats; cbn; [done|].
  rewrite IH. apply length_insert.
Qed.

Lemma mark_axes_ok (ps : PartialShape) (s : Shape) (ul ats : list nat) :
  get_shape ps = Ok s ->
  (forall a, a ∈ ul -> s !! a = Some 1%nat /\ (a < length ats)%nat) ->
  mark_axes false ps ul ats = Ok (mark_all ats ul).
Proof.
  intros Hs. unfold mark_all. revert ats; induction ul as [|x ul IH]; intros ats Hul; [done|].
  destruct (Hul x (list_elem_of_here _ _)) as [Hx Hlt].
  cbn [mark_axes negb]. rewrite Hs.
  unfold mbind, Result_bind, vec_at_checked, check, vec_set_checked.
  apply Nat.ltb_lt in Hlt. rewrite Hx, Hlt. cbn [Nat.eqb].
  apply IH. intros a Ha. rewrite length_insert.
  apply Hul. apply list_elem_of_further, Ha.
Qed.

Lemma lookup_mark_all (ats ul : list nat) (i : nat) :
  (i < length ats)%nat ->
  mark_all ats ul !! i = if bool_decide (i ∈ ul) then Some 1%nat else ats !! i.
Proof.
  unfold mark_all. revert ats; induction ul as [|a ul IH]; intros ats Hi; cbn.
  - rewrite bool_decide_eq_false_2 by (rewrite elem_of_nil; tauto). reflexivity.
  - rewrite IH by (rewrite length_insert; exact Hi).
    destruct (decide (i = a)) as [->|Hne].
    + rewrite list_lookup_insert_eq by exact Hi.
      rewrite (bool_decide_eq_true_2 (a ∈ a :: ul)) by apply list_elem_of_here.
      destruct (bool_decide (a ∈ ul)); reflexivity.
    + rewrite list_lookup_insert_ne by congruence.
      destruct (bool_decide (i ∈ ul)) eqn:E1;
      destruct (bool_decide (i ∈ a :: ul)) eqn:E2; try reflexivity;
      apply bool_decide_eq_true_1 in E1 || apply bool_decide_eq_false_1 in E1;
      apply bool_decide_eq_true_1 in E2 || apply bool_decide_eq_false_1 in E2;
      rewrite elem_of_cons in E2; tauto.
Qed.

Lemma squeezed_dims_ok (dims : list Dimension) (ats idx : list nat) :
  (forall i, i ∈ idx -> is_Some (ats !! i) /\ is_Some (dims !! i)) ->
  squeezed_dims dims ats idx =
  Ok (omap (fun i => if bool_decide (ats !! i = Some 0%nat) then dims !! i else None) idx).
Proof.
  induction idx as [|i idx IH]; intros Hidx; [reflexivity|].
  destruct (Hidx i (list_elem_of_here _ _)) as [[m Hm] [d Hd]].
  cbn [squeezed_dims]. unfold mbind, Result_bind, vec_at_checked.
  rewrite Hm, IH by (intros j Hj; apply Hidx, list_elem_of_further, Hj).
  cbn [omap list_omap]. rewrite Hm.
  destruct (Nat.eqb_spec m 0) as [->|Hne].
  - rewrite bool_decide_eq_true_2 by reflexivity. rewrite Hd. reflexivity.
  - rewrite bool_decide_eq_false_2 by congruence. reflexivity.
Qed.

Lemma omap_marked (s : Shape) (axes : list nat) (l : list nat) :
  (forall i, i ∈ l -> (i < length s)%nat) ->
  omap (fun i => if bool_decide (mark_all (replicate (length s) 0%nat) (set_greater axes) !! i
                                 = Some 0%nat)
                 then map Dim s !! i else None) l
  = map Dim (omap (fun i => if bool_decide (i ∈ axes) then None else s !! i) l).
Proof.
  induction l as [|i l IH]; intros Hl; [reflexivity|].
  assert (Hi : (i < length s)%nat) by (apply Hl, list_elem_of_here).
  cbn [omap list_omap].
  rewrite IH by (intros j Hj; apply Hl, list_elem_of_further, Hj).
  rewrite lookup_mark_all by (rewrite length_replicate; exact Hi).
  rewrite lookup_replicate_2 by exact Hi.
  destruct (lookup_lt_is_Some_2 s i Hi) as [d Hd].
  rewrite list_lookup_fmap, Hd. cbn [fmap option_fmap option_map].
  destruct (decide (i ∈ axes)) as [Hin|Hnin].
  - rewrite (bool_decide_eq_true_2 (i ∈ set_greater axes)) by (apply set_greater_elem, Hin).
    rewrite bool_decide_eq_false_2 by congruence.
    rewrite bool_decide_eq_true_2 by exact Hin. reflexivity.
  - rewrite (bool_decide_eq_false_2 (i ∈ set_greater axes)) by (rewrite set_greater_elem; exact Hnin).
    rewrite bool_decide_eq_true_2 by reflexivity.
    rewrite bool_decide_eq_false_2 by exact Hnin. reflexivity.
Qed.

(** The inference path for a static data shape and constant axes whose
    named dimensions are all 1. *)
Lemma pre_validate_static (n : Squeeze) (s : Shape) (vals : list Z) (axes : list nat) :
  producer_pshape (sq_data n) = of_shape s ->
  axes_constant n = Some vals ->
  get_axes n = Ok axes ->
  (forall a, a ∈ axes -> s !! a = Some 1%nat) ->
  pre_validate_and_infer_types n
  = Ok (producer_et (sq_data n), PShape (map Dim (kept_dims s axes))).
Proof.
  intros Hps Hax Hga Hones.
  unfold pre_validate_and_infer_types.
  rewrite Hps, Hax, rank_of_shape, is_static_of_shape. cbn [dim_is_static negb orb andb].
  rewrite bool_decide_eq_true_2 by (eexists; reflexivity). cbn [negb orb].
  unfold mbind, Result_bind at 1, get_length. rewrite Hga.
  change (mark_axes (negb true)) with (mark_axes false).
  cbn [Result_bind].
  rewrite (mark_axes_ok _ s); cycle 1.
  { apply get_shape_of_shape. }
  { intros a Ha. apply set_greater_elem, Hones in Ha.
    split; [exact Ha|rewrite length_replicate; exact (lookup_lt_Some _ _ _ Ha)]. }
  unfold of_shape. cbn [Result_bind]. rewrite squeezed_dims_ok.
  - unfold kept_dims. rewrite omap_marked by (intros i Hi; apply elem_of_seq in Hi; lia).
    reflexivity.
  - intros i Hi. apply elem_of_seq in Hi.
    split; apply lookup_lt_is_Some_2;
      rewrite ?length_mark_all, ?length_replicate, ?length_map; lia.
Qed.

Lemma length_filter_split (P : nat -> Prop) `{forall x, Decision (P x)} (l : list nat) :
  (length (filter P l) + length (filter (fun x => ~ P x) l))%nat = length l.
Proof.
  induction l as [|x l IH]; [reflexivity|].
  rewrite !filter_cons. repeat case_decide; cbn; try tauto; lia.
Qed.

Lemma length_removed_positions (axes : list nat) (n : nat) :
  (forall a, a ∈ axes -> (a < n)%nat) ->
  length (filter (fun i => i ∈ axes) (seq 0 n)) = size (list_to_set axes : gset nat).
Proof.
  intros Hlt.
  rewrite <- (size_list_to_set (C:=gset nat) (filter (fun i => i ∈ axes) (seq 0 n)))
    by (apply NoDup_filter, NoDup_seq).
  f_equal. apply set_eq. intros x.
  rewrite !elem_of_list_to_set, list_elem_of_filter, elem_of_seq.
  split; [tauto|]. intros Hx. specialize (Hlt x Hx). split; [exact Hx|lia].
Qed.

Lemma length_omap_kept (s : Shape) (axes l : list nat) :
  (forall i, i ∈ l -> (i < length s)%nat) ->
  length (omap (fun i => if bool_decide (i ∈ axes) then None else s !! i) l)
  = length (filter (fun i => ~ i ∈ axes) l).
Proof.
  induction l as [|i l IH]; intros Hl; [reflexivity|].
  assert (Hi : (i < length s)%nat) by (apply Hl, list_elem_of_here).
  cbn [omap list_omap]. rewrite filter_cons.
  destruct (lookup_lt_is_Some_2 s i Hi) as [d Hd].
  destruct (decide (i ∈ axes)) as [Hin|Hnin].
  - rewrite bool_decide_eq_true_2 by exact Hin.
    rewrite decide_False by tauto. apply IH. intros j Hj; apply Hl, list_elem_of_further, Hj.
  - rewrite bool_decide_eq_false_2 by exact Hnin. rewrite Hd.
    rewrite decide_True by exact Hnin. cbn. f_equal.
    apply IH. intros j Hj; apply Hl, list_elem_of_further, Hj.
Qed.

Lemma length_kept_dims (s : Shape) (axes : list nat) :
  (forall a, a ∈ axes -> (a < length s)%nat) ->
  length (kept_dims s axes) = (length s - size (list_to_set axes : gset nat))%nat.
Proof.
  intros Hlt. unfold kept_dims.
  rewrite length_omap_kept by (intros i Hi; apply elem_of_seq in Hi; lia).
  rewrite <- (length_removed_positions axes (length s) Hlt).
  pose proof (length_filter_split (fun i => i ∈ axes) (seq 0 (length s))) as Hsplit.
  rewrite length_seq in Hsplit. lia.
Qed.

(** The positions scanned by [unit_axes] when the list is empty. *)
Lemma unit_axes_ok (s : Shape) (l : list nat) :
  (forall i, i ∈ l -> (i < length s)%nat) ->
  unit_axes s l = Ok (filter (fun i => s !! i = Some 1%nat) l).
Proof.
  induction l as [|i l IH]; intros Hl; [reflexivity|].
  destruct (lookup_lt_is_Some_2 s i (Hl i (list_elem_of_here _ _))) as [d Hd].
  cbn [unit_axes]. unfold mbind, Result_bind, vec_at_checked. rewrite Hd.
  rewrite IH by (intros j Hj; apply Hl, list_elem_of_further, Hj).
  rewrite filter_cons, Hd. f_equal.
  destruct (Nat.eqb_spec d 1) as [->|Hne].
  - rewrite decide_True by reflexivity. reflexivity.
  - rewrite decide_False by congruence. reflexivity.
Qed.

Lemma omap_positions (h : nat -> option nat) (s p : list nat) :
  omap (fun i => match (p ++ s) !! i with Some d => h d | None => None end)
       (seq (length p) (length s))
  = omap h s.
Proof.
  revert p; induction s as [|d s IH]; intros p; [reflexivity|].
  cbn [length seq omap list_omap].
  rewrite lookup_app_r by lia. rewrite Nat.sub_diag. cbn [lookup list_lookup].
  specialize (IH (p ++ [d])). rewrite <- app_assoc, length_app in IH. cbn in IH.
  rewrite Nat.add_1_r in IH. rewrite IH. reflexivity.
Qed.


Lemma omap_ext_in {A B} (f g : A -> option B) (l : list A) :
  (forall x, x ∈ l -> f x = g x) -> omap f l = omap g l.
Proof.
  induction l as [|x l IH]; intros Hfg; [reflexivity|].
  cbn [omap list_omap]. rewrite (Hfg x (list_elem_of_here _ _)).
  rewrite IH by (intros y Hy; apply Hfg, list_elem_of_further, Hy). reflexivity.
Qed.

Lemma omap_filter_not_one (s : Shape) :
  omap (fun d => if decide (d = 1%nat) then None else Some d) s = filter (fun d => d <> 1%nat) s.
Proof.
  induction s as [|d s IH]; [reflexivity|].
  cbn [omap list_omap]. rewrite filter_cons, IH.
  destruct (decide (d = 1%nat)); [rewrite decide_False by tauto|rewrite decide_True by tauto];
    reflexivity.
Qed.

Lemma kept_dims_unit_axes (s : Shape) :
  kept_dims s (filter (fun i => s !! i = Some 1%nat) (seq 0 (length s)))
  = filter (fun d => d <> 1%nat) s.
Proof.
  unfold kept_dims. rewrite <- omap_filter_not_one.
  rewrite <- (omap_positions _ s []). cbn [app length].
  apply omap_ext_in. intros i Hi. apply elem_of_seq in Hi.
  destruct (lookup_lt_is_Some_2 s i ltac:(lia)) as [d Hd]. rewrite Hd.
  destruct (decide (d = 1%nat)) as [->|Hne].
  - rewrite bool_decide_eq_true_2; [reflexivity|].
    apply list_elem_of_filter. split; [exact Hd|apply elem_of_seq; lia].
  - rewrite bool_decide_eq_false_2; [reflexivity|].
    rewrite list_elem_of_filter. intros [Hd1 _]. congruence.
Qed.

(** C5 (counterexample): Squeeze of data {1,2} by the constant empty axis
    list. Every indicated dimension is 1 (there is none), yet the output is
    {2}, of rank 1 rather than rank({1,2}) - |{}| = 2: an empty axis list
    removes every dimension equal to 1 (lines 103-113). *)
Lemma C5_empty_axes_remove_unit_dims :
  pre_validate_and_infer_types (squeeze_node [Dim 1; Dim 2] [])
  = Ok (element.f32, PShape [Dim 2]) /\
  length [Dim 2] <> (length [Dim 1; Dim 2] - 0)%nat.
Proof. split; [reflexivity|discriminate]. Qed.

(** C5 (amended): for every fully static data shape [s] and constant axes
    list [vals]: if [vals] is non-empty and each of its axes, normalized
    against the rank (negative indices resolved), names a dimension equal
    to 1, the output shape consists of the dimensions of [s] at the
    positions not removed, in order, and its rank is rank(s) minus the
    number of distinct normalized axes; if [vals] is empty, the output
    shape consists of the dimensions of [s] other than 1, in order. *)
Theorem C5_static_squeeze_output (n : Squeeze) (s : Shape) (vals : list Z) :
  producer_pshape (sq_data n) = of_shape s ->
  axes_constant n = Some vals ->
  (forall axes, vals <> [] ->
     normalize_axes vals (length s) = Ok axes ->
     (forall a, a ∈ axes -> s !! a = Some 1%nat) ->
     pre_validate_and_infer_types n
       = Ok (producer_et (sq_data n), PShape (map Dim (kept_dims s axes))) /\
     length (kept_dims s axes) = (length s - size (list_to_set axes : gset nat))%nat) /\
  (vals = [] ->
     pre_validate_and_infer_types n
       = Ok (producer_et (sq_data n), PShape (map Dim (filter (fun d => d <> 1%nat) s)))).
Proof.
  intros Hps Hax. split.
  - intros axes Hne Hn Hones. split.
    + apply (pre_validate_static n s vals axes Hps Hax); [|exact Hones].
      unfold get_axes. rewrite Hps, Hax, rank_of_shape. cbn [get_length mbind Result_bind].
      destruct vals; [congruence|exact Hn].
    + apply length_kept_dims. intros a Ha.
      exact (lookup_lt_Some _ _ _ (Hones a Ha)).
  - intros ->. rewrite <- kept_dims_unit_axes.
    apply (pre_validate_static n s [] _ Hps Hax).
    + unfold get_axes. rewrite Hps, Hax, rank_of_shape. cbn [get_length mbind Result_bind].
      rewrite get_shape_of_shape. cbn [Result_bind].
      apply unit_axes_ok. intros i Hi. apply elem_of_seq in Hi. lia.
    + intros a Ha. apply list_elem_of_filter in Ha as [Ha _]. exact Ha.
Qed.

(** ** Squeeze: decomposition *)

Lemma get_shape_dynamic (ps : PartialShape) :
  is_static ps = false -> exists e, get_shape ps = Err e.
Proof.
  destruct ps as [ds|]; cbn; [|eexists; reflexivity].
  intros ->. eexists; reflexivity.
Qed.

Lemma get_shape_is_static (ps : PartialShape) (s : Shape) :
  get_shape ps = Ok s -> is_static ps = true.
Proof. intros H. apply get_shape_static in H as ->. apply is_static_of_shape. Qed.

(** C8 (counterexample): Squeeze of data {2,?} by the constant axes {1}.
    Inference gives the static output shape {2}, yet decomposition fails:
    [data.get_shape()] (line 129) throws on the dynamic data shape. *)
Lemma C8_static_output_dynamic_data :
  pre_validate_and_infer_types (squeeze_node [Dim 2; DimDynamic] [1])
    = Ok (element.f32, PShape [Dim 2]) /\
  decompose_op (squeeze_node [Dim 2; DimDynamic] [1]) (PShape [Dim 2]) = Err NgraphError.
Proof. split; reflexivity. Qed.

(** C8 (amended): decomposition of a Squeeze fails validation, producing no
    node, when the inferred output shape is not static; when the output
    shape and the data shape are both static it returns exactly one Reshape
    of the data input with the identity input order and the inferred output
    shape; when the output shape is static but the data shape is not, it
    fails. *)
Theorem C8_decompose_op_reshape (n : Squeeze) (out : PartialShape) :
  (is_static out = false -> decompose_op n out = Err NodeValidationFailure) /\
  (forall data_shape output_shape,
     get_shape (producer_pshape (sq_data n)) = Ok data_shape ->
     get_shape out = Ok output_shape ->
     decompose_op n out
     = Ok [Reshape (sq_data n) (get_default_order (length data_shape)) output_shape]) /\
  (is_static out = true -> is_static (producer_pshape (sq_data n)) = false ->
     exists e, decompose_op n out = Err e).
Proof.
  unfold decompose_op, check, mbind, Result_bind. split; [|split].
  - intros ->. reflexivity.
  - intros ds os Hd Ho. rewrite (get_shape_is_static _ _ Ho), Hd, Ho. reflexivity.
  - intros Hs Hd. rewrite Hs. destruct (get_shape_dynamic _ Hd) as [e ->].
    eexists; reflexivity.
Qed.

(** ** Broadcast: the element type of the output *)

(** C10: whenever Broadcast validation succeeds, in every mode and whatever
    the target shape, the output element type is the argument's. *)
Theorem C10_output_element_type (oob : nat -> nat) (n : BroadcastBase)
  (et : element.Type_t) (ps : PartialShape) :
  validate_and_infer_types oob n = Ok (et, ps) -> et = producer_et (bc_arg n).
Proof.
  unfold validate_and_infer_types, mbind, Result_bind.
  repeat case_match; intros Hok; try discriminate; injection Hok as <- _; reflexivity.
Qed.

(** ** CPU layout pass *)

Module CPULayoutFacts.
Import CPULayout.

Section Facts.
Context {Layout : Type} (LayoutDescriptor : TensorView -> Layout).

Lemma layout_outputs_keeps (tvs : list TensorView) (ls : gmap nat Layout) (k : nat) (l : Layout) :
ls !! k = Some l -> layout_outputs LayoutDescriptor tvs ls !! k = Some l.
Proof.
revert ls; induction tvs as [|tv tvs IH]; intros ls Hk; cbn; [exact Hk|].
destruct (ls !! tv_id tv) eqn:E; apply IH; [exact Hk|].
rewrite lookup_insert_ne; [exact Hk|congruence].
Qed.

Lemma layout_outputs_assigns (tvs : list TensorView) (ls : gmap nat Layout) (tv : TensorView) :
tv ∈ tvs -> is_Some (layout_outputs LayoutDescriptor tvs ls !! tv_id tv).
Proof.
revert ls; induction tvs as [|tv' tvs IH]; intros ls Hin; [set_solver|].
apply elem_of_cons in Hin as [<-|Hin]; cbn.
- destruct (ls !! tv_id tv) as [l|] eqn:E.
  + exists l. apply layout_outputs_keeps, E.
  + exists (LayoutDescriptor tv). apply layout_outputs_keeps, lookup_insert_eq.
- destruct (ls !! tv_id tv'); apply IH, Hin.
Qed.

Lemma layout_outputs_all_set (tvs : list TensorView) (ls : gmap nat Layout) :
(forall tv, tv ∈ tvs -> is_Some (ls !! tv_id tv)) ->
layout_outputs LayoutDescriptor tvs ls = ls.
Proof.
induction tvs as [|tv tvs IH]; intros Hall; cbn; [reflexivity|].
destruct (Hall tv (list_elem_of_here _ _)) as [l ->].
apply IH. intros tv' Hin. apply Hall, list_elem_of_further, Hin.
Qed.

Definition run_layouts (nodes : list Node) (ls : gmap nat Layout) : gmap nat Layout :=
fold_left (fun ls nd => layout_outputs LayoutDescriptor (node_outputs nd) ls) nodes ls.

Lemma run_layouts_keeps (nodes : list Node) (ls : gmap nat Layout) (k : nat) (l : Layout) :
ls !! k = Some l -> run_layouts nodes ls !! k = Some l.
Proof.
unfold run_layouts. revert ls; induction nodes as [|nd nodes IH]; intros ls Hk; cbn;
  [exact Hk|].
apply IH, layout_outputs_keeps, Hk.
Qed.

Lemma run_layouts_assigns (nodes : list Node) (ls : gmap nat Layout) (nd : Node) (tv : TensorView) :
nd ∈ nodes -> tv ∈ node_outputs nd -> is_Some (run_layouts nodes ls !! tv_id tv).
Proof.
unfold run_layouts. revert ls; induction nodes as [|nd' nodes IH]; intros ls Hnd Htv;
  [set_solver|].
cbn. apply elem_of_cons in Hnd as [<-|Hnd].
- destruct (layout_outputs_assigns (node_outputs nd) ls tv Htv) as [l Hl].
  exists l. exact (run_layouts_keeps nodes _ _ _ Hl).
- exact (IH _ Hnd Htv).
Qed.

Lemma run_layouts_all_set (nodes : list Node) (ls : gmap nat Layout) :
(forall nd tv, nd ∈ nodes -> tv ∈ node_outputs nd -> is_Some (ls !! tv_id tv)) ->
run_layouts nodes ls = ls.
Proof.
unfold run_layouts. revert ls; induction nodes as [|nd nodes IH]; intros ls Hall; cbn;
  [reflexivity|].
rewrite layout_outputs_all_set
  by (intros tv Htv; exact (Hall nd tv (list_elem_of_here _ _) Htv)).
apply IH. intros nd' tv Hnd Htv. exact (Hall nd' tv (list_elem_of_further _ _ _ Hnd) Htv).
Qed.

(** C9: the layout pass leaves every output that already has a layout
  descriptor untouched, reports no structural change, and running it a
  second time reports no change again and leaves the same descriptors
  as the first run. *)
Theorem C9_layout_pass_idempotent (nodes : list Node) (ls : gmap nat Layout) :
(forall k l, ls !! k = Some l ->
   (run_on_call_graph LayoutDescriptor nodes ls).2 !! k = Some l) /\
(run_on_call_graph LayoutDescriptor nodes ls).1 = false /\
run_on_call_graph LayoutDescriptor nodes (run_on_call_graph LayoutDescriptor nodes ls).2
= (false, (run_on_call_graph LayoutDescriptor nodes ls).2).
Proof.
split; [|split; [reflexivity|]].
- intros k l Hk. exact (run_layouts_keeps nodes ls k l Hk).
- unfold run_on_call_graph. cbn [fst snd]. f_equal.
  apply (run_layouts_all_set nodes (run_layouts nodes ls)).
  intros nd tv Hnd Htv. exact (run_layouts_assigns nodes ls nd tv Hnd Htv).
Qed.

End Facts.
End CPULayoutFacts.

(** ** Broadcast: evaluation *)

(** What [evaluate_broadcast] itself does with a given axes pair. *)
Lemma evaluate_broadcast_cases (arg0 : HostTensor) (axes : gset nat) (known : bool)
  (output_shape : Shape) (st : EvalState) :
  (known = false -> evaluate_broadcast arg0 (known, axes) output_shape st = (false, st)) /\
  (known = true -> supported_type (ht_et arg0) = false ->
     evaluate_broadcast arg0 (known, axes) output_shape st
     = (false, set_shape st output_shape)) /\
  (known = true -> supported_type (ht_et arg0) = true ->
     evaluate_broadcast arg0 (known, axes) output_shape st
     = (true, {| es_out := {| ht_et := ht_et (es_out st); ht_shape := output_shape |};
                 es_calls := es_calls st ++
                   [{| kc_et := ht_et arg0; kc_arg_shape := ht_shape arg0;
                       kc_out_shape := output_shape; kc_axes := axes |}] |})).
Proof.
  unfold evaluate_broadcast. split; [|split]; intros ->; cbn; [reflexivity| |];
    intros ->; reflexivity.
Qed.

(** C7 (code_bug): NUMPY Broadcast of an f32 argument {3} to a target shape
    that is not a constant (a static i64 vector of 2 elements). Inference
    leaves the output shape dynamic and [get_broadcast_axes] reports the
    axes as not known, yet [evaluate] does not return false: its argument
    [get_output_shape(0)] throws on the dynamic output shape before
    [evaluate_broadcast] can return false. *)
Lemma C7_unknown_axes_evaluation_throws (oob : nat -> nat) :
  let n := broadcast_node NUMPY 0 (f32_param [Dim 3])
             (OtherOp element.i64 (PShape [Dim 2])) None in
  validate_and_infer_types oob n = Ok (element.f32, PDynamic) /\
  get_broadcast_axes oob n PDynamic = Ok (false, ∅) /\
  evaluate oob n PDynamic {| ht_et := element.f32; ht_shape := [3%nat] |} eval_state0
    = Err NgraphError.
Proof. cbn zeta. split; [|split]; reflexivity. Qed.

(** ** Broadcast, NUMPY and PDPD: the aligned positions *)

Lemma start_axis_nonneg (mode : BroadcastModeSpec) (tr ar : nat) : 0 <= start_axis mode tr ar.
Proof.
  unfold start_axis, size_t_of.
  destruct (m_type mode); apply Z.mod_pos_bound; lia.
Qed.

(** For NUMPY and PDPD with a constant target and a static argument,
    validation is the two input checks followed by the loop of lines
    184-195 over [loop_range]. *)
Lemma validate_numpy_pdpd (oob : nat -> nat) (n : BroadcastBase) (et1 : element.Type_t)
  (s1 : Shape) (tvals : list Z) (a : Shape) :
  is_numpy_or_pdpd (m_type (bc_mode n)) = true ->
  bc_target_shape n = Constant et1 s1 tvals ->
  get_shape (producer_pshape (bc_arg n)) = Ok a ->
  let t := get_shape_val tvals in
  let start := start_axis (bc_mode n) (length t) (length a) in
  validate_and_infer_types oob n =
  (check (element.is_integral_number et1) ;;
   check (dim_compatible (rank (of_shape s1)) 1) ;;
   dims ← numpy_loop oob a t start (loop_range start (length t)) (map Dim t);
   Ok (producer_et (bc_arg n), PShape dims)).
Proof.
  intros Hm Ht Ha t start.
  pose proof (get_shape_is_static _ _ Ha) as Hs.
  pose proof (proj2 (Z.leb_le _ _) (start_axis_nonneg (bc_mode n) (length t) (length a))) as H0.
  unfold validate_and_infer_types. rewrite Ht. cbn [producer_pshape producer_et].
  rewrite Hs, Ha, is_static_of_shape.
  subst t start.
  destruct (m_type (bc_mode n)) eqn:E; try discriminate; cbn [andb];
    unfold mbind, Result_bind, check; cbv beta iota; rewrite H0;
    destruct (element.is_integral_number et1), (dim_compatible (rank (of_shape s1)) 1);
    try reflexivity;
    match goal with |- context [numpy_loop ?o ?x ?y ?z ?w ?v] =>
      destruct (numpy_loop o x y z w v) end; reflexivity.
Qed.

Lemma dims_compatible_spec (x y : nat) :
  dims_compatible x y = true <-> x = 1%nat \/ y = 1%nat \/ x = y.
Proof.
  unfold dims_compatible.
  rewrite !orb_true_iff, !Nat.eqb_eq. tauto.
Qed.

Section NumpyLoop.
Variables (oob : nat -> nat) (a t : Shape) (start : Z).

Definition arg_dim (i : nat) : nat := vec_at oob a (Z.to_nat (Z.of_nat i - start)).

Lemma numpy_loop_incompatible (idx : list nat) (res : list Dimension) (i : nat) :
  i ∈ idx -> dims_compatible (arg_dim i) (vec_at oob t i) = false ->
  exists e, numpy_loop oob a t start idx res = Err e.
Proof.
  revert res; induction idx as [|j idx IH]; intros res Hi Hc; [set_solver|].
  cbn [numpy_loop]. unfold mbind, Result_bind, check.
  apply elem_of_cons in Hi as [<-|Hi].
  - unfold dims_compatible, arg_dim in Hc. rewrite Hc. eexists; reflexivity.
  - destruct (_ || _); [|eexists; reflexivity]. exact (IH _ Hi Hc).
Qed.

Lemma numpy_loop_ok (idx : list nat) (res res' : list Dimension) :
  NoDup idx ->
  numpy_loop oob a t start idx res = Ok res' ->
  length res' = length res /\
  (forall j, j ∉ idx -> res' !! j = res !! j) /\
  (forall i, i ∈ idx -> dims_compatible (arg_dim i) (vec_at oob t i) = true /\
     ((i < length res)%nat -> res' !! i = Some (Dim (Nat.max (arg_dim i) (vec_at oob t i))))).
Proof.
  revert res; induction idx as [|i idx IH]; intros res Hnd Hloop.
  - injection Hloop as <-. split; [reflexivity|split; [reflexivity|set_solver]].
  - apply NoDup_cons in Hnd as [Hnin Hnd].
    cbn [numpy_loop] in Hloop. unfold mbind, Result_bind, check in Hloop.
    destruct (_ || _) eqn:Hc in Hloop; [|discriminate].
    destruct (IH _ Hnd Hloop) as (Hlen & Hkeep & Hset).
    rewrite length_insert in Hlen.
    split; [exact Hlen|split].
    + intros j Hj. rewrite Hkeep by set_solver.
      apply list_lookup_insert_ne. set_solver.
    + intros k Hk. apply elem_of_cons in Hk as [->|Hk].
      * split; [exact Hc|]. intros Hlt. rewrite Hkeep by exact Hnin.
        apply list_lookup_insert_eq, Hlt.
      * destruct (Hset k Hk) as [Hck Hk']. split; [exact Hck|].
        intros Hlt. apply Hk'. rewrite length_insert. exact Hlt.
Qed.
End NumpyLoop.

Lemma start_axis_valid (mode : BroadcastModeSpec) (tr ar : nat) :
  start_valid mode tr ar -> start_axis mode tr ar = Z.of_nat (aligned_start mode tr ar).
Proof.
  unfold start_valid, start_axis, aligned_start, size_t_of.
  destruct (m_type mode); intros Hv.
  1, 2, 4: rewrite Nat2Z.inj_sub by lia; apply Z.mod_small; lia.
  rewrite Z2Nat.id by lia. apply Z.mod_small. lia.
Qed.

Lemma loop_range_elem (s tr i : nat) :
  i ∈ loop_range (Z.of_nat s) tr <-> (s <= i < tr)%nat.
Proof.
  unfold loop_range. rewrite Nat2Z.id.
  destruct (Z.of_nat s <? Z.of_nat tr) eqn:E.
  - apply Z.ltb_lt in E. rewrite elem_of_seq. lia.
  - apply Z.ltb_ge in E. rewrite elem_of_nil. lia.
Qed.

Lemma loop_range_NoDup (start : Z) (tr : nat) : NoDup (loop_range start tr).
Proof. unfold loop_range. destruct (_ <? _); [apply NoDup_seq|constructor]. Qed.

(** C4: for every NUMPY or PDPD Broadcast with a static argument shape [a],
    a constant target shape [t] and a valid start axis [s], validation fails
    as soon as the argument and target dimensions at some aligned position
    are different and neither is 1; when validation succeeds the output
    shape has the rank of [t], the larger of the two dimensions at every
    aligned position (which are then equal or one of them is 1), and the
    dimension of [t] at every leading position before [s]. *)
Theorem C4_numpy_pdpd_aligned_dims (oob : nat -> nat) (n : BroadcastBase)
  (et1 : element.Type_t) (s1 : Shape) (tvals : list Z) (a : Shape) :
  is_numpy_or_pdpd (m_type (bc_mode n)) = true ->
  bc_target_shape n = Constant et1 s1 tvals ->
  get_shape (producer_pshape (bc_arg n)) = Ok a ->
  start_valid (bc_mode n) (length (get_shape_val tvals)) (length a) ->
  (forall i x y,
     (aligned_start (bc_mode n) (length (get_shape_val tvals)) (length a) <= i)%nat ->
     a !! (i - aligned_start (bc_mode n) (length (get_shape_val tvals)) (length a))%nat = Some x ->
     get_shape_val tvals !! i = Some y ->
     ~ (x = 1%nat \/ y = 1%nat \/ x = y) ->
     exists e, validate_and_infer_types oob n = Err e) /\
  (forall et ps, validate_and_infer_types oob n = Ok (et, ps) ->
     exists ds, ps = PShape ds /\ length ds = length (get_shape_val tvals) /\
     (forall i y,
        (i < aligned_start (bc_mode n) (length (get_shape_val tvals)) (length a))%nat ->
        get_shape_val tvals !! i = Some y -> ds !! i = Some (Dim y)) /\
     (forall i x y,
        (aligned_start (bc_mode n) (length (get_shape_val tvals)) (length a) <= i)%nat ->
        a !! (i - aligned_start (bc_mode n) (length (get_shape_val tvals)) (length a))%nat = Some x ->
        get_shape_val tvals !! i = Some y ->
        (x = 1%nat \/ y = 1%nat \/ x = y) /\ ds !! i = Some (Dim (Nat.max x y)))).
Proof.
  intros Hm Ht Ha Hv.
  rewrite (validate_numpy_pdpd oob n et1 s1 tvals a Hm Ht Ha). cbv zeta.
  set (t := get_shape_val tvals) in *.
  set (s := aligned_start (bc_mode n) (length t) (length a)).
  rewrite (start_axis_valid _ _ _ Hv). fold s.
  (* the argument dimension read at an aligned position *)
  assert (Harg : forall i x, (s <= i)%nat -> a !! (i - s)%nat = Some x ->
                 arg_dim oob a (Z.of_nat s) i = x).
  { intros i x Hi Hx. unfold arg_dim, vec_at.
    replace (Z.to_nat (Z.of_nat i - Z.of_nat s)) with (i - s)%nat by lia.
    rewrite Hx. reflexivity. }
  assert (Htgt : forall i y, t !! i = Some y -> vec_at oob t i = y).
  { intros i y Hy. unfold vec_at. rewrite Hy. reflexivity. }
  unfold mbind, Result_bind, check.
  destruct (element.is_integral_number et1);
    [|split; [intros; eexists; reflexivity|intros ? ? [=]]].
  destruct (dim_compatible (rank (of_shape s1)) 1);
    [|split; [intros; eexists; reflexivity|intros ? ? [=]]].
  split.
  - intros i x y Hi Hx Hy Hnc.
    assert (Hin : i ∈ loop_range (Z.of_nat s) (length t))
      by (apply loop_range_elem; split; [exact Hi|exact (lookup_lt_Some _ _ _ Hy)]).
    destruct (numpy_loop_incompatible oob a t (Z.of_nat s) _ (map Dim t) i Hin) as [e He].
    + rewrite Harg with (x := x) by assumption. rewrite Htgt with (y := y) by assumption.
      destruct (dims_compatible x y) eqn:Hc; [|reflexivity].
      exfalso. apply Hnc, dims_compatible_spec, Hc.
    + rewrite He. eexists; reflexivity.
  - intros et ps Hok.
    destruct (numpy_loop oob a t (Z.of_nat s) (loop_range (Z.of_nat s) (length t)) (map Dim t))
      as [dims|e] eqn:Hloop; [|discriminate].
    injection Hok as <- <-.
    destruct (numpy_loop_ok oob a t (Z.of_nat s) _ _ _ (loop_range_NoDup _ _) Hloop)
      as (Hlen & Hkeep & Hset).
    exists dims. split; [reflexivity|]. rewrite length_map in Hlen.
    split; [exact Hlen|split].
    + intros i y Hi Hy. rewrite Hkeep by (rewrite loop_range_elem; lia).
      rewrite list_lookup_fmap, Hy. reflexivity.
    + intros i x y Hi Hx Hy.
      assert (Hin : i ∈ loop_range (Z.of_nat s) (length t))
        by (apply loop_range_elem; split; [exact Hi|exact (lookup_lt_Some _ _ _ Hy)]).
      destruct (Hset i Hin) as [Hc Hval].
      rewrite (Harg i x Hi Hx), (Htgt i y Hy) in Hc, Hval.
      split; [apply dims_compatible_spec, Hc|].
      apply Hval. rewrite length_map. exact (lookup_lt_Some _ _ _ Hy).
Qed.

Lemma get_shape_of_static (ps : PartialShape) :
  is_static ps = true -> exists s, get_shape ps = Ok s.
Proof.
  destruct ps as [ds|]; cbn; [|discriminate]. intros ->. eexists; reflexivity.
Qed.

Lemma numpy_axes_loop_elem (oob : nat -> nat) (a r : Shape) (start : Z)
  (idx : list nat) (acc : gset nat) (i : nat) :
  i ∈ numpy_axes_loop oob a r start idx acc <->
  i ∈ acc \/
  (i ∈ idx /\ (Z.of_nat i < start \/
               vec_at oob r i <> vec_at oob a (Z.to_nat (Z.of_nat i - start)))).
Proof.
  revert acc. induction idx as [|j idx IH]; intros acc; cbn [numpy_axes_loop].
  - rewrite elem_of_nil. tauto.
  - rewrite IH, elem_of_cons.
    destruct (Z.of_nat j <? start) eqn:Hlt; cbn [orb].
    + apply Z.ltb_lt in Hlt. rewrite elem_of_union, elem_of_singleton.
      split; [intros [[->|?]|[? ?]]; auto|].
      intros [?|[[->|?] ?]]; auto.
    + apply Z.ltb_ge in Hlt.
      destruct (Nat.eqb _ _) eqn:Heq; cbn [negb].
      * apply Nat.eqb_eq in Heq. split; [intros [?|[? ?]]; auto|].
        intros [?|[[->|?] [?|?]]]; auto; lia.
      * apply Nat.eqb_neq in Heq. rewrite elem_of_union, elem_of_singleton.
        split; [intros [[->|?]|[? ?]]; auto|].
        intros [?|[[->|?] ?]]; auto.
Qed.

(** [get_broadcast_axes] in NUMPY or PDPD mode, with the code's [size_t]
    start axis. *)
Lemma numpy_pdpd_broadcast_axes_code (oob : nat -> nat) (n : BroadcastBase)
  (out : PartialShape) :
  is_numpy_or_pdpd (m_type (bc_mode n)) = true ->
  exists axes,
    get_broadcast_axes oob n out
      = Ok (is_static (producer_pshape (bc_arg n)) && is_static out, axes) /\
    (forall a r, get_shape (producer_pshape (bc_arg n)) = Ok a -> get_shape out = Ok r ->
       forall i, i ∈ axes <->
         (i < length r)%nat /\
         (Z.of_nat i < start_axis (bc_mode n) (length r) (length a) \/
          vec_at oob r i
            <> vec_at oob a (Z.to_nat (Z.of_nat i - start_axis (bc_mode n) (length r) (length a))))) /\
    (is_static (producer_pshape (bc_arg n)) && is_static out = false -> axes = ∅).
Proof.
  intros Hm. unfold get_broadcast_axes.
  destruct (is_static (producer_pshape (bc_arg n)) && is_static out) eqn:Hs.
  - apply andb_true_iff in Hs as [Ha Ho].
    destruct (get_shape_of_static _ Ha) as [a Hga].
    destruct (get_shape_of_static _ Ho) as [r Hgr].
    assert (Hstart : (0 <=? start_axis (bc_mode n) (length r) (length a)) = true)
      by (apply Z.leb_le, start_axis_nonneg).
    exists (numpy_axes_loop oob a r (start_axis (bc_mode n) (length r) (length a))
              (seq 0 (length r)) ∅).
    split; [|split; [|discriminate]].
    + unfold is_numpy_or_pdpd in Hm.
      destruct (m_type (bc_mode n)); try discriminate;
        cbv beta iota zeta; rewrite Hga, Hgr, !bind_Ok;
        unfold ngraph_check; rewrite Hstart; reflexivity.
    + intros a' r' Ha' Hr' i. rewrite Hga in Ha'. rewrite Hgr in Hr'.
      injection Ha' as <-. injection Hr' as <-.
      rewrite numpy_axes_loop_elem, elem_of_seq.
      split; [intros [Hi|[Hi ?]]; [set_solver|split; [lia|assumption]]|].
      intros [? ?]. right. split; [lia|assumption].
  - exists ∅. split; [|split; [|reflexivity]].
    + unfold is_numpy_or_pdpd in Hm.
      destruct (m_type (bc_mode n)); try discriminate; reflexivity.
    + intros a r Ha Hr. apply get_shape_is_static in Ha, Hr.
      rewrite Ha, Hr in Hs. discriminate.
Qed.

Lemma spec_start_axis_valid (mode : BroadcastModeSpec) (tr ar : nat) :
  start_valid mode tr ar -> spec_start_axis mode tr ar = start_axis mode tr ar.
Proof.
  intros Hv. rewrite (start_axis_valid mode tr ar Hv).
  unfold start_valid, spec_start_axis, aligned_start in *.
  destruct (m_type mode); try (rewrite Nat2Z.inj_sub by lia; reflexivity).
  rewrite Z2Nat.id by lia. reflexivity.
Qed.

(** C6 (code_bug): in NUMPY or PDPD mode, [get_broadcast_axes] reports the
    axes known exactly when the argument and output shapes are static, and
    otherwise returns no axes without failing; when the spec's start axis is
    valid (non-negative), the axes are exactly the spec's: the output axes
    before the start axis or whose dimension differs from the aligned
    argument dimension. On the node of C1 (NUMPY, argument {2,3}, constant
    target {3}), which validates with output {3}, the spec's start axis is
    -1 and no axis qualifies (output dimension 3 is the aligned argument
    dimension 3), yet the code, whose [size_t] start axis wraps to
    2^64 - 1, reports axis 0 as a broadcast axis. *)
Theorem C6_negative_start_axis_broadcast_axes :
  (forall (oob : nat -> nat) (n : BroadcastBase) (out : PartialShape),
     is_numpy_or_pdpd (m_type (bc_mode n)) = true ->
     exists axes,
       get_broadcast_axes oob n out
         = Ok (is_static (producer_pshape (bc_arg n)) && is_static out, axes) /\
       (forall a r, get_shape (producer_pshape (bc_arg n)) = Ok a -> get_shape out = Ok r ->
          start_valid (bc_mode n) (length r) (length a) ->
          forall i, i ∈ axes <-> spec_broadcast_axis oob (bc_mode n) a r i) /\
       (is_static (producer_pshape (bc_arg n)) && is_static out = false -> axes = ∅)) /\
  (forall oob : nat -> nat,
     validate_and_infer_types oob
       (broadcast_node NUMPY 0 (f32_param [Dim 2; Dim 3]) (i64_const [3]) None)
     = Ok (element.f32, PShape [Dim 3]) /\
     (forall i, ~ spec_broadcast_axis oob {| m_type := NUMPY; m_axis := 0 |}
                    [2%nat; 3%nat] [3%nat] i) /\
     exists axes,
       get_broadcast_axes oob
         (broadcast_node NUMPY 0 (f32_param [Dim 2; Dim 3]) (i64_const [3]) None)
         (PShape [Dim 3]) = Ok (true, axes) /\ 0%nat ∈ axes).
Proof.
  split.
  - intros oob n out Hm.
    destruct (numpy_pdpd_broadcast_axes_code oob n out Hm) as (axes & Hget & Hin & Hdyn).
    exists axes. split; [exact Hget|]. split; [|exact Hdyn].
    intros a r Ha Hr Hv i. rewrite (Hin a r Ha Hr i).
    unfold spec_broadcast_axis. rewrite (spec_start_axis_valid _ _ _ Hv). reflexivity.
  - intros oob. split; [reflexivity|]. split.
    + intros i [Hi Hc]. cbn in Hi. assert (i = 0%nat) as -> by lia.
      destruct Hc as [Hc|Hc]; [cbn in Hc; lia|]. apply Hc. reflexivity.
    + eexists. split; [reflexivity|].
      apply numpy_axes_loop_elem. right. split; [apply elem_of_seq; cbn; lia|].
      left. apply Z.ltb_lt. vm_compute. reflexivity.
Qed.

(** ** Witnesses: each proved theorem with hypotheses, applied at a concrete
    node on which its hypotheses hold. Out-of-range reads yield 0. *)

(** EXPLICIT Broadcast of {2,3} to the constant target {2,3} with the
    constant, unsorted axes mapping {1,0}. *)
Lemma explicit_unsorted_mapping_rejected_witness :
  exists e, validate_and_infer_types (fun _ => 0%nat)
    (broadcast_node NONE 0 (f32_param [Dim 2; Dim 3]) (i64_const [2; 3])
       (Some (i64_const [1; 0]))) = Err e.
Proof.
  apply (explicit_unsorted_mapping_rejected (fun _ => 0%nat) _ element.i64 element.i64
           [2%nat] [2%nat] [2; 3] [1; 0]); reflexivity.
Defined.

(** C4: NUMPY Broadcast of {2,3} to the constant target {4,5,3}: the aligned
    dimensions 2 and 5 at position 1 are incompatible. *)
Lemma C4_numpy_pdpd_aligned_dims_witness :
  exists e, validate_and_infer_types (fun _ => 0%nat)
    (broadcast_node NUMPY 0 (f32_param [Dim 2; Dim 3]) (i64_const [4; 5; 3]) None) = Err e.
Proof.
  refine (proj1 (C4_numpy_pdpd_aligned_dims (fun _ => 0%nat)
                   (broadcast_node NUMPY 0 (f32_param [Dim 2; Dim 3]) (i64_const [4; 5; 3]) None)
                   element.i64 [3%nat] [4; 5; 3] [2%nat; 3%nat] _ _ _ _) 1%nat 2%nat 5%nat _ _ _ _).
  - reflexivity.
  - reflexivity.
  - reflexivity.
  - cbn. lia.
  - cbn. lia.
  - reflexivity.
  - reflexivity.
  - cbn. lia.
Defined.

(** C5: Squeeze of the static data {2,1,3} by the constant axes {1}. *)
Lemma C5_static_squeeze_output_witness :
  pre_validate_and_infer_types (squeeze_node [Dim 2; Dim 1; Dim 3] [1])
    = Ok (element.f32, PShape (map Dim (kept_dims [2%nat; 1%nat; 3%nat] [1%nat]))).
Proof.
  refine (proj1 (proj1 (C5_static_squeeze_output (squeeze_node [Dim 2; Dim 1; Dim 3] [1])
                           [2%nat; 1%nat; 3%nat] [1] eq_refl eq_refl) [1%nat] _ _ _)).
  - discriminate.
  - reflexivity.
  - intros a Ha. apply list_elem_of_singleton in Ha as ->. reflexivity.
Defined.

(** C10: NUMPY Broadcast of f32 {3} to a target shape that is not a constant:
    the output shape stays dynamic and the element type is the argument's. *)
Lemma C10_output_element_type_witness :
  validate_and_infer_types (fun _ => 0%nat)
    (broadcast_node NUMPY 0 (f32_param [Dim 3]) (OtherOp element.i64 (PShape [Dim 2])) None)
    = Ok (element.f32, PDynamic) /\
  element.f32
    = producer_et (bc_arg (broadcast_node NUMPY 0 (f32_param [Dim 3])
                             (OtherOp element.i64 (PShape [Dim 2])) None)).
Proof.
  split; [reflexivity|].
  apply (C10_output_element_type (fun _ => 0%nat)
           (broadcast_node NUMPY 0 (f32_param [Dim 3]) (OtherOp element.i64 (PShape [Dim 2])) None)
           element.f32 PDynamic).
  reflexivity.
Defined.

(** * Further properties of the code *)

(** ** Broadcast: the axes of EXPLICIT mode *)

Lemma filter_ext_in (P Q : nat -> Prop) `{forall x, Decision (P x)} `{forall x, Decision (Q x)}
  (l : list nat) :
  (forall x, x ∈ l -> P x <-> Q x) -> filter P l = filter Q l.
Proof.
  induction l as [|x l IH]; intros HPQ; [reflexivity|].
  rewrite !filter_cons.
  rewrite IH by (intros y Hy; apply HPQ, list_elem_of_further, Hy).
  pose proof (HPQ x (list_elem_of_here _ _)).
  repeat case_decide; tauto.
Qed.

Lemma filter_all_in (P : nat -> Prop) `{forall x, Decision (P x)} (l : list nat) :
  (forall x, x ∈ l -> P x) -> filter P l = l.
Proof.
  induction l as [|x l IH]; intros HP; [reflexivity|].
  rewrite filter_cons, decide_True by (apply HP, list_elem_of_here).
  f_equal. apply IH. intros y Hy. apply HP, list_elem_of_further, Hy.
Qed.

Lemma strictly_increasing_cons (k : nat) (l : list nat) :
  strictly_increasing (k :: l) = true ->
  strictly_increasing l = true /\ forall x, x ∈ l -> (k < x)%nat.
Proof.
  revert k; induction l as [|y l IH]; intros k Hs.
  - split; [reflexivity|intros x Hx; set_solver].
  - cbn [strictly_increasing] in Hs. apply andb_true_iff in Hs as [Hky Hs].
    apply Nat.ltb_lt in Hky. split; [exact Hs|].
    destruct (IH y Hs) as [_ Hy].
    intros x Hx. apply elem_of_cons in Hx as [->|Hx]; [exact Hky|].
    specialize (Hy x Hx). lia.
Qed.

Lemma erase_mapped_app (v : list nat) (xs : list nat) (k : nat) :
  erase_mapped v (xs ++ [k]) = (erase_mapped v xs ≫= fun v' => erase_at v' k).
Proof.
  revert v; induction xs as [|x xs IH]; intros v; cbn [app erase_mapped].
  - unfold mbind, Result_bind. destruct (erase_at v k); reflexivity.
  - unfold mbind, Result_bind at 1 3. destruct (erase_at v x) as [v'|e]; [|reflexivity].
    apply IH.
Qed.

Lemma erase_at_delete (v : list nat) (k : nat) :
  (k < length v)%nat -> erase_at v k = Ok (delete k v).
Proof.
  intros Hk. unfold erase_at. apply Nat.ltb_lt in Hk. rewrite Hk, delete_take_drop.
  reflexivity.
Qed.

(** Erasing, last first, the positions of a strictly increasing list of
    axes below [r] from [0, ..., r-1] leaves the axes not in the list. *)
Lemma erase_mapped_complement (r : nat) (l : list nat) :
  strictly_increasing l = true -> (forall k, k ∈ l -> (k < r)%nat) ->
  erase_mapped (seq 0 r) (rev l) = Ok (filter (fun i => i ∉ l) (seq 0 r)).
Proof.
  induction l as [|k l IH]; intros Hs Hr.
  - cbn. f_equal. symmetry. apply filter_all_in. intros x _. set_solver.
  - destruct (strictly_increasing_cons k l Hs) as [Hs' Hgt].
    assert (Hk : (k < r)%nat) by (apply Hr, list_elem_of_here).
    cbn [rev]. rewrite erase_mapped_app.
    rewrite IH by (exact Hs' || (intros x Hx; apply Hr, list_elem_of_further, Hx)).
    cbn [mbind Result_bind].
    replace r with (k + S (r - S k))%nat at 1 2 by lia.
    rewrite seq_app. cbn [seq Nat.add]. rewrite !filter_app, !filter_cons.
    rewrite (filter_all_in (fun i => i ∉ l) (seq 0 k))
      by (intros x Hx Hxl; apply elem_of_seq in Hx; specialize (Hgt x Hxl); lia).
    rewrite (filter_all_in (fun i => i ∉ k :: l) (seq 0 k))
      by (intros x Hx Hxl; apply elem_of_seq in Hx; apply elem_of_cons in Hxl as [->|Hxl];
          [lia|specialize (Hgt x Hxl); lia]).
    rewrite decide_True by (intros Hkl; specialize (Hgt k Hkl); lia).
    rewrite decide_False by (intros Hn; apply Hn, list_elem_of_here).
    rewrite (filter_ext_in (fun i => i ∉ k :: l) (fun i => i ∉ l) (seq (S k) (r - S k))).
    + rewrite erase_at_delete by (rewrite length_app, length_seq; cbn; lia).
      f_equal. rewrite delete_take_drop.
      rewrite take_app_length' by (rewrite length_seq; reflexivity).
      rewrite cons_middle, app_assoc.
      rewrite drop_app_length' by (rewrite length_app, length_seq; cbn; lia).
      reflexivity.
    + intros x Hx. apply elem_of_seq in Hx. rewrite elem_of_cons.
      split; [tauto|]. intros Hn [->|Hxl]; [lia|tauto].
Qed.

Lemma erase_mapped_shrinks (v : list nat) (d : list nat) (v' : list nat) :
  erase_mapped v d = Ok v' ->
  (length d <= length v)%nat /\ length v' = (length v - length d)%nat /\ v' `sublist_of` v.
Proof.
  revert v; induction d as [|k d IH]; intros v; cbn [erase_mapped].
  - intros [= <-]. cbn. split; [lia|split; [lia|reflexivity]].
  - unfold erase_at, mbind, Result_bind at 1.
    destruct (Nat.ltb_spec k (length v)) as [Hk|Hk]; [|discriminate].
    rewrite <- delete_take_drop. intros He.
    destruct (IH _ He) as (Hle & Hlen & Hsub).
    rewrite length_delete in Hle, Hlen by (apply lookup_lt_is_Some_2, Hk).
    cbn [length]. split; [lia|split; [lia|]].
    etrans; [exact Hsub|apply sublist_delete].
Qed.

Lemma erase_mapped_past_end (v d : list nat) (k : nat) :
  k ∈ d -> (length v <= k)%nat -> erase_mapped v d = Err UndefinedBehaviour.
Proof.
  revert v; induction d as [|k' d IH]; intros v Hk Hlen; [set_solver|].
  cbn [erase_mapped]. unfold erase_at, mbind, Result_bind at 1.
  destruct (Nat.ltb_spec k' (length v)) as [Hk'|Hk']; [|reflexivity].
  apply elem_of_cons in Hk as [->|Hk]; [lia|].
  rewrite <- delete_take_drop. apply IH; [exact Hk|].
  rewrite length_delete by (apply lookup_lt_is_Some_2, Hk'). lia.
Qed.

(** The EXPLICIT branch of [get_broadcast_axes] once the mapping is a
    constant and the target shape input has the static shape {r}. *)
Lemma get_broadcast_axes_explicit (oob : nat -> nat) (n : BroadcastBase) (out : PartialShape)
  (et2 : element.Type_t) (s2 : Shape) (avals : list Z) (r : nat) :
  m_type (bc_mode n) = NONE ->
  bc_axes_mapping n = Some (Constant et2 s2 avals) ->
  get_shape (producer_pshape (bc_target_shape n)) = Ok [r] ->
  get_broadcast_axes oob n out
  = (axes ← erase_mapped (seq 0 r) (rev (get_axis_vector_val avals));
     Ok (true, list_to_set axes)).
Proof.
  intros Hm Hp Ht. unfold get_broadcast_axes, input2.
  rewrite Hm, Hp, (get_shape_is_static _ _ Ht), Ht. reflexivity.
Qed.

(** EXPLICIT mode, constant axes mapping, target shape input of static shape
    {r}: a strictly increasing mapping below [r] gives as broadcast axes
    exactly the target axes that are not mapped. *)
Theorem explicit_broadcast_axes_complement (oob : nat -> nat) (n : BroadcastBase)
  (out : PartialShape) (et2 : element.Type_t) (s2 : Shape) (avals : list Z) (r : nat) :
  m_type (bc_mode n) = NONE ->
  bc_axes_mapping n = Some (Constant et2 s2 avals) ->
  get_shape (producer_pshape (bc_target_shape n)) = Ok [r] ->
  strictly_increasing (get_axis_vector_val avals) = true ->
  (forall k, k ∈ get_axis_vector_val avals -> (k < r)%nat) ->
  exists axes, get_broadcast_axes oob n out = Ok (true, axes) /\
    forall i, i ∈ axes <-> (i < r)%nat /\ i ∉ get_axis_vector_val avals.
Proof.
  intros Hm Hp Ht Hs Hr.
  rewrite (get_broadcast_axes_explicit oob n out et2 s2 avals r Hm Hp Ht).
  rewrite erase_mapped_complement by assumption.
  eexists; split; [reflexivity|]. intros i.
  rewrite elem_of_list_to_set, list_elem_of_filter, elem_of_seq.
  split; intros [H1 H2]; split; (assumption || lia).
Qed.

(** EXPLICIT mode, constant axes mapping, target shape input of static shape
    {r}: a mapping value at or past [r] makes the [erase] run past the end;
    when the call succeeds, the axis set has [r] minus the number of mapping
    entries elements, repeated entries counted. *)
Theorem explicit_broadcast_axes_erase (oob : nat -> nat) (n : BroadcastBase)
  (out : PartialShape) (et2 : element.Type_t) (s2 : Shape) (avals : list Z) (r : nat) :
  m_type (bc_mode n) = NONE ->
  bc_axes_mapping n = Some (Constant et2 s2 avals) ->
  get_shape (producer_pshape (bc_target_shape n)) = Ok [r] ->
  ((exists k, k ∈ get_axis_vector_val avals /\ (r <= k)%nat) ->
     get_broadcast_axes oob n out = Err UndefinedBehaviour) /\
  (forall known axes, get_broadcast_axes oob n out = Ok (known, axes) ->
     known = true /\ (size axes + length (get_axis_vector_val avals))%nat = r).
Proof.
  intros Hm Hp Ht.
  rewrite (get_broadcast_axes_explicit oob n out et2 s2 avals r Hm Hp Ht).
  split.
  - intros (k & Hk & Hrk). rewrite (erase_mapped_past_end _ _ k); [reflexivity| |].
    + apply list_elem_of_In. apply -> in_rev. apply list_elem_of_In, Hk.
    + rewrite length_seq. exact Hrk.
  - intros known axes.
    destruct (erase_mapped (seq 0 r) (rev (get_axis_vector_val avals))) as [v'|e] eqn:He;
      [|discriminate].
    cbn [mbind Result_bind]. intros [= <- <-]. split; [reflexivity|].
    destruct (erase_mapped_shrinks _ _ _ He) as (Hle & Hlen & Hsub).
    rewrite length_rev, length_seq in Hle, Hlen.
    rewrite size_list_to_set by (apply (sublist_NoDup _ _ (NoDup_seq 0 r)), Hsub).
    lia.
Qed.

(** ** Broadcast: EXPLICIT validation *)

Lemma explicit_loop_ok (oob : nat -> nat) (a t : Shape) (am : list nat) (i0 : nat) :
  explicit_loop oob a t i0 am = Ok tt ->
  forall j k, am !! j = Some k ->
    (k < length t)%nat /\ t !! k = Some (vec_at oob a (i0 + j)).
Proof.
  revert i0; induction am as [|k0 am IH]; intros i0 Hok j k Hj; [discriminate|].
  cbn [explicit_loop] in Hok. unfold check, mbind, Result_bind in Hok.
  destruct (Nat.ltb_spec k0 (length t)) as [Hk0|]; [|discriminate].
  destruct (Nat.eqb_spec (vec_at oob t k0) (vec_at oob a i0)) as [Heq|]; [|discriminate].
  destruct j as [|j]; cbn in Hj.
  - injection Hj as <-. split; [exact Hk0|].
    destruct (lookup_lt_is_Some_2 t k0 Hk0) as [x Hx].
    rewrite Hx. unfold vec_at in Heq. rewrite Hx in Heq. rewrite Heq, Nat.add_0_r. reflexivity.
  - rewrite <- Nat.add_succ_comm. exact (IH (S i0) Hok j k Hj).
Qed.

(** EXPLICIT mode with constant target shape and axes mapping and a static
    argument shape [a]: when validation succeeds, the output shape is the
    target shape, the mapping has one entry per argument axis, is sorted,
    and maps argument axis [i] to a target axis in range whose dimension is
    the argument's. *)
Theorem explicit_validation_mapping (oob : nat -> nat) (n : BroadcastBase)
  (et1 et2 : element.Type_t) (s1 s2 : Shape) (tvals avals : list Z) (a : Shape)
  (et : element.Type_t) (ps : PartialShape) :
  m_type (bc_mode n) = NONE ->
  bc_target_shape n = Constant et1 s1 tvals ->
  bc_axes_mapping n = Some (Constant et2 s2 avals) ->
  length avals = shape_size s2 ->
  get_shape (producer_pshape (bc_arg n)) = Ok a ->
  validate_and_infer_types oob n = Ok (et, ps) ->
  ps = of_shape (get_shape_val tvals) /\
  length (get_axis_vector_val avals) = length a /\
  is_sorted (get_axis_vector_val avals) = true /\
  (forall i k, get_axis_vector_val avals !! i = Some k ->
     (k < length (get_shape_val tvals))%nat /\ get_shape_val tvals !! k = a !! i).
Proof.
  intros Hm Ht Hp Hlen Ha Hok.
  unfold validate_and_infer_types, input2 in Hok.
  rewrite Hm, Ht, Hp in Hok. cbn [producer_pshape producer_et initial_result_shape] in Hok.
  rewrite (get_shape_is_static _ _ Ha), Ha in Hok.
  unfold mbind in Hok. cbn [Result_bind producer_pshape producer_et andb] in Hok.
  rewrite !is_static_of_shape, get_shape_of_shape in Hok.
  unfold check in Hok.
  repeat (cbn [Result_bind andb] in Hok;
          first [ discriminate
                | match type of Hok with
                  | context [if ?b then _ else _] => destruct b eqn:?
                  | context [explicit_loop ?o ?x ?y ?z ?w] =>
                      destruct (explicit_loop o x y z w) as [[]|?] eqn:Hloop
                  end ]).
  injection Hok as <- <-.
  match goal with H : Nat.eqb (shape_size s2) (length a) = true |- _ =>
    apply Nat.eqb_eq in H as Hsz end.
  split; [reflexivity|]. split.
  { unfold get_axis_vector_val. rewrite length_map. lia. }
  split; [reflexivity|].
  intros i k Hik. destruct (explicit_loop_ok oob a _ _ 0 Hloop i k Hik) as [Hk Hval].
  split; [exact Hk|]. rewrite Hval. cbn [Nat.add].
  assert (Hi : (i < length a)%nat).
  { apply lookup_lt_Some in Hik. unfold get_axis_vector_val in Hik. rewrite length_map in Hik. lia. }
  destruct (lookup_lt_is_Some_2 a i Hi) as [x Hx]. unfold vec_at. rewrite Hx. reflexivity.
Qed.

(** ** Broadcast: when the NUMPY/PDPD check does not run *)

(** NUMPY or PDPD mode with a dynamic argument shape or a target shape
    that is not a literal constant (e.g. a [Concat]): once the target shape
    input passes its type and rank checks, validation succeeds with the
    shape read from the target input, whatever the argument shape; no
    compatibility check is made. *)
Theorem numpy_pdpd_unchecked_target (oob : nat -> nat) (n : BroadcastBase) :
  is_numpy_or_pdpd (m_type (bc_mode n)) = true ->
  (is_static (producer_pshape (bc_arg n)) = false \/
   forall et s vals, bc_target_shape n <> Constant et s vals) ->
  element.is_integral_number (producer_et (bc_target_shape n)) = true ->
  dim_compatible (rank (producer_pshape (bc_target_shape n))) 1 = true ->
  validate_and_infer_types oob n
  = Ok (producer_et (bc_arg n), initial_result_shape oob (bc_target_shape n)).
Proof.
  intros Hm Hc Hi Hr. unfold validate_and_infer_types. rewrite Hi, Hr.
  unfold is_numpy_or_pdpd in Hm.
  destruct (m_type (bc_mode n)); try discriminate; cbn [check mbind Result_bind];
    (destruct Hc as [Ha|Hnc];
     [rewrite Ha; reflexivity
     |destruct (is_static (producer_pshape (bc_arg n))) eqn:Hs0; [|reflexivity];
      destruct (is_static (producer_pshape (bc_target_shape n))); [|reflexivity];
      destruct (get_shape_of_static _ Hs0) as [a Ha]; rewrite Ha;
      cbn [andb Result_bind];
      destruct (bc_target_shape n) eqn:Et; [exfalso; eapply Hnc; reflexivity| |];
      reflexivity]).
Qed.

(** ** Broadcast: BIDIRECTIONAL mode *)

(** BIDIRECTIONAL mode: validation makes no check of the argument against
    the target and gives the shape read from the target input, but
    [get_broadcast_axes] throws ("Unknown autobroadcast type"), and so do
    [evaluate] and [generate_adjoints]. *)
Theorem bidirectional_validates_but_not_evaluable (oob : nat -> nat) (n : BroadcastBase)
  (out : PartialShape) (arg0 : HostTensor) (st : EvalState) {D : Type} (deltas : list D) :
  m_type (bc_mode n) = BIDIRECTIONAL ->
  (element.is_integral_number (producer_et (bc_target_shape n)) = true ->
   dim_compatible (rank (producer_pshape (bc_target_shape n))) 1 = true ->
   validate_and_infer_types oob n
   = Ok (producer_et (bc_arg n), initial_result_shape oob (bc_target_shape n))) /\
  get_broadcast_axes oob n out = Err NgraphError /\
  evaluate oob n out arg0 st = Err NgraphError /\
  (exists e, generate_adjoints oob n out deltas = Err e).
Proof.
  intros Hm. split; [|split; [|split]].
  - intros Hi Hr. unfold validate_and_infer_types. rewrite Hi, Hr, Hm. reflexivity.
  - unfold get_broadcast_axes. rewrite Hm. reflexivity.
  - unfold evaluate, get_broadcast_axes. rewrite Hm. reflexivity.
  - unfold generate_adjoints, get_broadcast_axes. rewrite Hm.
    unfold mbind, Result_bind. destruct (vec_at_checked deltas 0%nat); eexists; reflexivity.
Qed.

(** ** Broadcast: evaluation in NUMPY/PDPD mode *)

Lemma get_broadcast_axes_numpy_static (oob : nat -> nat) (n : BroadcastBase)
  (out : PartialShape) (a r : Shape) :
  is_numpy_or_pdpd (m_type (bc_mode n)) = true ->
  get_shape (producer_pshape (bc_arg n)) = Ok a -> get_shape out = Ok r ->
  get_broadcast_axes oob n out
  = Ok (true, numpy_axes_loop oob a r (start_axis (bc_mode n) (length r) (length a))
                (seq 0 (length r)) ∅).
Proof.
  intros Hm Ha Hr. unfold get_broadcast_axes.
  rewrite (get_shape_is_static _ _ Ha), (get_shape_is_static _ _ Hr), Ha, Hr.
  unfold is_numpy_or_pdpd in Hm.
  pose proof (start_axis_nonneg (bc_mode n) (length r) (length a)) as Hs.
  apply Z.leb_le in Hs.
  destruct (m_type (bc_mode n)); try discriminate; cbn [mbind Result_bind andb];
    unfold ngraph_check; rewrite Hs; reflexivity.
Qed.

Lemma numpy_axes_spec (oob : nat -> nat) (a r : Shape) (start : Z) (i : nat) :
  i ∈ numpy_axes_loop oob a r start (seq 0 (length r)) ∅ <->
  (i < length r)%nat /\
  (Z.of_nat i < start \/ vec_at oob r i <> vec_at oob a (Z.to_nat (Z.of_nat i - start))).
Proof.
  rewrite numpy_axes_loop_elem, elem_of_seq.
  split; [intros [Hi|[[_ Hi] Hc]]; [apply not_elem_of_empty in Hi; contradiction|cbn in Hi; auto]|].
  intros [Hi Hc]. right. split; [split; cbn; lia|exact Hc].
Qed.

(** NUMPY or PDPD mode with static argument and output shapes [a] and [r]:
    [evaluate] sets the output tensor's shape to [r] (keeping its element
    type) and returns true exactly when the input's element type has a
    kernel instantiation; in that case it makes exactly one kernel call,
    with the input's shape, the output shape [r] and as broadcast axes the
    output positions before the start axis or whose dimension differs from
    the aligned argument dimension. *)
Theorem numpy_evaluate_kernel_call (oob : nat -> nat) (n : BroadcastBase)
  (out : PartialShape) (arg0 : HostTensor) (st : EvalState) (a r : Shape) :
  is_numpy_or_pdpd (m_type (bc_mode n)) = true ->
  get_shape (producer_pshape (bc_arg n)) = Ok a -> get_shape out = Ok r ->
  exists axes,
    evaluate oob n out arg0 st
    = Ok (supported_type (ht_et arg0),
          {| es_out := {| ht_et := ht_et (es_out st); ht_shape := r |};
             es_calls := es_calls st ++
               (if supported_type (ht_et arg0)
                then [{| kc_et := ht_et arg0; kc_arg_shape := ht_shape arg0;
                         kc_out_shape := r; kc_axes := axes |}]
                else []) |}) /\
    (forall i, i ∈ axes <->
       (i < length r)%nat /\
       (Z.of_nat i < start_axis (bc_mode n) (length r) (length a) \/
        vec_at oob r i
          <> vec_at oob a (Z.to_nat (Z.of_nat i - start_axis (bc_mode n) (length r) (length a))))).
Proof.
  intros Hm Ha Hr. eexists. split; [|intros i; apply numpy_axes_spec].
  unfold evaluate. rewrite (get_broadcast_axes_numpy_static oob n out a r Hm Ha Hr), Hr.
  cbn [Result_bind mbind]. f_equal.
  unfold evaluate_broadcast, evaluate_kernel, set_shape; cbn.
  destruct (supported_type (ht_et arg0)); cbn; [reflexivity|].
  rewrite app_nil_r. destruct st as [[] ]; reflexivity.
Qed.

(** NUMPY or PDPD mode: [evaluate] throws when the output shape is dynamic
    ([get_output_shape]); with a static output but a dynamic argument shape
    the axes are unknown, so it returns false and leaves the output tensor
    and the kernel calls untouched. *)
Theorem numpy_evaluate_dynamic (oob : nat -> nat) (n : BroadcastBase)
  (out : PartialShape) (arg0 : HostTensor) (st : EvalState) :
  is_numpy_or_pdpd (m_type (bc_mode n)) = true ->
  (is_static out = false -> exists e, evaluate oob n out arg0 st = Err e) /\
  (is_static (producer_pshape (bc_arg n)) = false -> is_static out = true ->
   evaluate oob n out arg0 st = Ok (false, st)).
Proof.
  intros Hm. unfold is_numpy_or_pdpd in Hm. split.
  - intros Hout. destruct (get_shape_dynamic _ Hout) as [e He].
    unfold evaluate, get_broadcast_axes. rewrite Hout, andb_false_r.
    destruct (m_type (bc_mode n)); try discriminate; cbn [Result_bind mbind];
      rewrite He; eexists; reflexivity.
  - intros Harg Hout. destruct (get_shape_of_static _ Hout) as [r Hr].
    unfold evaluate, get_broadcast_axes. rewrite Harg.
    destruct (m_type (bc_mode n)); try discriminate; cbn [andb Result_bind mbind];
      rewrite Hr; reflexivity.
Qed.

(** ** Broadcast: adjoints *)

(** [generate_adjoints]: in every mode, with no output delta it throws
    ([deltas.at(0)] comes first); in NUMPY or PDPD mode with static
    argument and output shapes [a] and [r], it adds to the broadcast
    argument the first delta summed over the broadcast axes, i.e. the output
    positions before the ([size_t]) start axis or whose dimension differs
    from the aligned argument dimension; with a dynamic argument or output
    shape it throws (the axes are unknown). *)
Theorem numpy_generate_adjoints (oob : nat -> nat) (n : BroadcastBase)
  (out : PartialShape) {D : Type} (deltas : list D) :
  generate_adjoints oob n out (@nil D) = Err OutOfRange /\
  (is_numpy_or_pdpd (m_type (bc_mode n)) = true ->
   (is_static (producer_pshape (bc_arg n)) && is_static out = false ->
    exists e, generate_adjoints oob n out deltas = Err e) /\
   (forall a r d rest, get_shape (producer_pshape (bc_arg n)) = Ok a -> get_shape out = Ok r ->
    deltas = d :: rest ->
    exists axes,
      generate_adjoints oob n out deltas = Ok (Build_AddDelta D (bc_arg n) d axes) /\
      forall i, i ∈ axes <->
        (i < length r)%nat /\
        (Z.of_nat i < start_axis (bc_mode n) (length r) (length a) \/
         vec_at oob r i
           <> vec_at oob a (Z.to_nat (Z.of_nat i - start_axis (bc_mode n) (length r) (length a)))))).
Proof.
  split; [reflexivity|]. intros Hm. split.
  - intros Hs. unfold generate_adjoints.
    destruct (vec_at_checked deltas 0%nat) as [d|e]; cbn [mbind Result_bind]; [|eexists; reflexivity].
    unfold get_broadcast_axes. rewrite Hs. unfold is_numpy_or_pdpd in Hm.
    destruct (m_type (bc_mode n)); try discriminate; cbn; eexists; reflexivity.
  - intros a r d rest Ha Hr ->. eexists. split; [|intros i; apply numpy_axes_spec].
    unfold generate_adjoints. cbn [vec_at_checked mbind Result_bind].
    rewrite (get_broadcast_axes_numpy_static oob n out a r Hm Ha Hr). reflexivity.
Qed.

(** ** Broadcast: input checks *)

(** Validation rejects (NODE_VALIDATION_CHECK) a target shape input whose
    element type is not an integral number or whose rank is not compatible
    with 1, in every mode; in NONE mode the node must have a third input
    (reading it throws otherwise), and that input must also be of integral
    element type and rank compatible with 1. *)
Theorem broadcast_input_checks (oob : nat -> nat) (n : BroadcastBase) :
  (element.is_integral_number (producer_et (bc_target_shape n)) = false ->
   validate_and_infer_types oob n = Err NodeValidationFailure) /\
  (dim_compatible (rank (producer_pshape (bc_target_shape n))) 1 = false ->
   validate_and_infer_types oob n = Err NodeValidationFailure) /\
  (element.is_integral_number (producer_et (bc_target_shape n)) = true ->
   dim_compatible (rank (producer_pshape (bc_target_shape n))) 1 = true ->
   m_type (bc_mode n) = NONE ->
   (bc_axes_mapping n = None -> validate_and_infer_types oob n = Err OutOfRange) /\
   (forall p2, bc_axes_mapping n = Some p2 ->
    element.is_integral_number (producer_et p2) = false \/
    dim_compatible (rank (producer_pshape p2)) 1 = false ->
    validate_and_infer_types oob n = Err NodeValidationFailure)).
Proof.
  unfold validate_and_infer_types. split; [|split].
  - intros H. rewrite H. reflexivity.
  - intros H. destruct (element.is_integral_number _); [|reflexivity].
    cbn [check mbind Result_bind]. rewrite H. reflexivity.
  - intros Hi Hr Hm. rewrite Hi, Hr, Hm. cbn [check mbind Result_bind]. unfold input2. split.
    + intros ->. reflexivity.
    + intros p2 -> Hor. cbn [mbind Result_bind].
      destruct (element.is_integral_number (producer_et p2)),
               (dim_compatible (rank (producer_pshape p2)) 1);
        destruct Hor as [H|H]; try discriminate H; cbn [check mbind Result_bind]; reflexivity.
Qed.

(** NONE mode with static argument, target and axes-mapping shapes:
    validation rejects an axes mapping whose number of elements differs
    from the argument's rank. *)
Theorem explicit_axes_count_mismatch (oob : nat -> nat) (n : BroadcastBase)
  (p2 : Producer) (a m : Shape) :
  element.is_integral_number (producer_et (bc_target_shape n)) = true ->
  dim_compatible (rank (producer_pshape (bc_target_shape n))) 1 = true ->
  m_type (bc_mode n) = NONE ->
  bc_axes_mapping n = Some p2 ->
  element.is_integral_number (producer_et p2) = true ->
  dim_compatible (rank (producer_pshape p2)) 1 = true ->
  is_static (producer_pshape (bc_target_shape n)) = true ->
  get_shape (producer_pshape (bc_arg n)) = Ok a ->
  get_shape (producer_pshape p2) = Ok m ->
  shape_size m <> length a ->
  validate_and_infer_types oob n = Err NodeValidationFailure.
Proof.
  intros Hi Hr Hm Hp Hi2 Hr2 Ht Ha Hmm Hne.
  unfold validate_and_infer_types, input2. rewrite Hi, Hr, Hm, Hp.
  cbn [check mbind Result_bind]. rewrite Hi2, Hr2. cbn [check mbind Result_bind].
  rewrite (get_shape_is_static _ _ Ha), Ht, (get_shape_is_static _ _ Hmm), Ha, Hmm.
  cbn [andb mbind Result_bind check]. apply Nat.eqb_neq in Hne. rewrite Hne. reflexivity.
Qed.

(** ** Squeeze: more of the inference *)

(** [Squeeze::get_axes]: a non-constant axes input throws; with the empty
    constant axes list, a static data shape gives the positions of its
    dimensions equal to 1, in increasing order, and a data shape that is
    not static throws. *)
Theorem get_axes_cases (n : Squeeze) :
  (axes_constant n = None -> get_axes n = Err NgraphError) /\
  (axes_constant n = Some [] ->
   (forall s, producer_pshape (sq_data n) = of_shape s ->
      get_axes n = Ok (filter (fun i => s !! i = Some 1%nat) (seq 0 (length s)))) /\
   (is_static (producer_pshape (sq_data n)) = false -> exists e, get_axes n = Err e)).
Proof.
  unfold get_axes. split; [|intros Hax; split].
  - intros Hax. rewrite Hax.
    destruct (producer_pshape (sq_data n)); reflexivity.
  - intros s Hps. rewrite Hps, Hax, rank_of_shape. cbn [get_length mbind Result_bind].
    rewrite get_shape_of_shape. cbn [Result_bind].
    apply unit_axes_ok. intros i Hi. apply elem_of_seq in Hi. lia.
  - intros Hd. rewrite Hax. destruct (get_shape_dynamic _ Hd) as [e He]. rewrite He.
    destruct (get_length (rank (producer_pshape (sq_data n)))); cbn; eexists; reflexivity.
Qed.

(** Squeeze inference never changes the element type, and it gives a
    dynamic output shape without looking at the axes values when the data
    rank is dynamic, when the axes input is not a constant, or when the
    data shape is not static and the constant axes list is empty. *)
Theorem squeeze_dynamic_fallback (n : Squeeze) :
  (dim_is_static (rank (producer_pshape (sq_data n))) = false \/
   axes_constant n = None \/
   (is_static (producer_pshape (sq_data n)) = false /\ axes_constant n = Some []) ->
   pre_validate_and_infer_types n = Ok (producer_et (sq_data n), PDynamic)) /\
  (forall et ps, pre_validate_and_infer_types n = Ok (et, ps) -> et = producer_et (sq_data n)).
Proof.
  unfold pre_validate_and_infer_types. split.
  - intros [H|[H|[H1 H2]]].
    + rewrite H. reflexivity.
    + rewrite H. cbn [is_Some]. rewrite bool_decide_eq_false_2 by (intros [x Hx]; discriminate).
      rewrite orb_true_r. reflexivity.
    + rewrite H1, H2. cbn [negb andb]. rewrite (bool_decide_eq_true_2 (@nil Z = [])) by reflexivity.
      rewrite !orb_true_r. reflexivity.
  - intros et ps. destruct (_ || _ || _); [intros [= <- _]; reflexivity|].
    unfold mbind, Result_bind.
    repeat match goal with
           | |- context [match ?m with Ok _ => _ | Err _ => _ end] =>
               destruct m; [|discriminate]
           end.
    intros [= <- _]. reflexivity.
Qed.

Lemma mark_axes_dynamic (ps : PartialShape) (ul ats : list nat) :
  (forall a, a ∈ ul -> (a < length ats)%nat) ->
  mark_axes true ps ul ats = Ok (mark_all ats ul).
Proof.
  unfold mark_all. revert ats; induction ul as [|x ul IH]; intros ats Hul; [done|].
  cbn [mark_axes negb]. unfold mbind, Result_bind, vec_set_checked.
  pose proof (Hul x (list_elem_of_here _ _)) as Hlt. apply Nat.ltb_lt in Hlt. rewrite Hlt.
  apply IH. intros a Ha. rewrite length_insert.
  apply Hul. apply list_elem_of_further, Ha.
Qed.

Lemma omap_marked_gen {A} (ds : list A) (axes : list nat) (l : list nat) :
  (forall i, i ∈ l -> (i < length ds)%nat) ->
  omap (fun i => if bool_decide (mark_all (replicate (length ds) 0%nat) (set_greater axes) !! i
                                 = Some 0%nat)
                 then ds !! i else None) l
  = omap (fun i => if bool_decide (i ∈ axes) then None else ds !! i) l.
Proof.
  intros Hl. apply omap_ext_in. intros i Hi. specialize (Hl i Hi).
  rewrite lookup_mark_all by (rewrite length_replicate; exact Hl).
  rewrite lookup_replicate_2 by exact Hl.
  destruct (decide (i ∈ axes)) as [Hin|Hnin].
  - rewrite (bool_decide_eq_true_2 (i ∈ set_greater axes)) by (apply set_greater_elem, Hin).
    rewrite bool_decide_eq_false_2 by congruence.
    rewrite bool_decide_eq_true_2 by exact Hin. reflexivity.
  - rewrite (bool_decide_eq_false_2 (i ∈ set_greater axes)) by (rewrite set_greater_elem; exact Hnin).
    rewrite bool_decide_eq_true_2 by reflexivity.
    rewrite bool_decide_eq_false_2 by exact Hnin. reflexivity.
Qed.

(** Squeeze of data whose rank is static but whose shape is not, by a
    constant non-empty axes list: the output keeps the data dimensions
    (static or dynamic) at the positions not named by the axes, in order,
    and the sizes of the removed dimensions are not checked. *)
Theorem squeeze_partially_dynamic_output (n : Squeeze) (ds : list Dimension)
  (vals : list Z) (axes : list nat) :
  producer_pshape (sq_data n) = PShape ds ->
  is_static (PShape ds) = false ->
  axes_constant n = Some vals -> vals <> [] ->
  get_axes n = Ok axes ->
  (forall a, a ∈ axes -> (a < length ds)%nat) ->
  pre_validate_and_infer_types n
  = Ok (producer_et (sq_data n), PShape (kept_positions ds axes)).
Proof.
  intros Hps Hst Hax Hne Hga Hlt.
  unfold pre_validate_and_infer_types.
  rewrite Hps, Hax, Hst. cbn [rank dim_is_static negb orb andb].
  rewrite bool_decide_eq_true_2 by (eexists; reflexivity).
  rewrite bool_decide_eq_false_2 by exact Hne. cbn [negb orb andb].
  unfold mbind, Result_bind at 1, get_length. rewrite Hga. cbn [Result_bind].
  rewrite mark_axes_dynamic; cycle 1.
  { intros a Ha. apply set_greater_elem, Hlt in Ha. rewrite length_replicate. exact Ha. }
  cbn [Result_bind]. rewrite squeezed_dims_ok.
  - unfold kept_positions. rewrite omap_marked_gen by (intros i Hi; apply elem_of_seq in Hi; lia).
    reflexivity.
  - intros i Hi. apply elem_of_seq in Hi.
    split; apply lookup_lt_is_Some_2;
      rewrite ?length_mark_all, ?length_replicate; lia.
Qed.

Lemma shape_size_kept_offset (p s : Shape) (axes : list nat) :
  (forall a, a ∈ axes -> (length p <= a)%nat -> (p ++ s) !! a = Some 1%nat) ->
  shape_size (omap (fun i => if bool_decide (i ∈ axes) then None else (p ++ s) !! i)
                   (seq (length p) (length s)))
  = shape_size s.
Proof.
  revert p; induction s as [|d s IH]; intros p Hax; [reflexivity|].
  cbn [length seq omap list_omap].
  rewrite (lookup_app_r p) by lia. rewrite Nat.sub_diag. cbn [lookup list_lookup].
  specialize (IH (p ++ [d])). rewrite <- app_assoc, length_app in IH. cbn in IH.
  rewrite Nat.add_1_r in IH.
  assert (Hrec : forall a, a ∈ axes -> (S (length p) <= a)%nat -> (p ++ d :: s) !! a = Some 1%nat)
    by (intros a Ha Hle; apply Hax; [exact Ha|lia]).
  destruct (decide (length p ∈ axes)) as [Hin|Hnin].
  - rewrite bool_decide_eq_true_2 by exact Hin.
    pose proof (Hax _ Hin (le_n _)) as H1.
    rewrite (lookup_app_r p) in H1 by lia. rewrite Nat.sub_diag in H1. cbn in H1.
    injection H1 as ->. rewrite IH by exact Hrec. unfold shape_size; cbn; lia.
  - rewrite bool_decide_eq_false_2 by exact Hnin. cbn [shape_size fold_right].
    unfold shape_size in IH |- *. cbn. rewrite IH by exact Hrec. reflexivity.
Qed.

Lemma shape_size_kept_dims (s : Shape) (axes : list nat) :
  (forall a, a ∈ axes -> s !! a = Some 1%nat) ->
  shape_size (kept_dims s axes) = shape_size s.
Proof.
  intros Hax. unfold kept_dims.
  apply (shape_size_kept_offset [] s axes). intros a Ha _. exact (Hax a Ha).
Qed.

(** Squeeze of static data by a constant axes list whose axes all name
    dimensions equal to 1: inference succeeds, and decomposing with the
    inferred output shape gives a single Reshape of the data input, with
    the identity input order and the data dimensions not removed as output
    shape; that Reshape keeps the number of elements. *)
Theorem squeeze_static_reshape (n : Squeeze) (s : Shape) (vals : list Z) (axes : list nat) :
  producer_pshape (sq_data n) = of_shape s ->
  axes_constant n = Some vals ->
  get_axes n = Ok axes ->
  (forall a, a ∈ axes -> s !! a = Some 1%nat) ->
  exists ps,
    pre_validate_and_infer_types n = Ok (producer_et (sq_data n), ps) /\
    decompose_op n ps
    = Ok [Reshape (sq_data n) (get_default_order (length s)) (kept_dims s axes)] /\
    shape_size (kept_dims s axes) = shape_size s.
Proof.
  intros Hps Hax Hga Hones. eexists. split; [|split].
  - exact (pre_validate_static n s vals axes Hps Hax Hga Hones).
  - unfold decompose_op. rewrite Hps. change (PShape (map Dim (kept_dims s axes)))
      with (of_shape (kept_dims s axes)).
    rewrite is_static_of_shape, !get_shape_of_shape. reflexivity.
  - exact (shape_size_kept_dims s axes Hones).
Qed.

(** ** CPU layout pass: the descriptor each tensor ends up with *)

Module CPULayoutResult.
Import CPULayout.

Section Result.
Context {Layout : Type} (LayoutDescriptor : TensorView -> Layout).

Lemma find_app {A} (p : A -> bool) (l1 l2 : list A) :
  find p (l1 ++ l2) = match find p l1 with Some x => Some x | None => find p l2 end.
Proof.
  induction l1 as [|x l1 IH]; cbn; [reflexivity|]. destruct (p x); [reflexivity|exact IH].
Qed.

Lemma layout_outputs_lookup (tvs : list TensorView) (ls : gmap nat Layout) (k : nat) :
  layout_outputs LayoutDescriptor tvs ls !! k
  = match ls !! k with
    | Some l => Some l
    | None => LayoutDescriptor <$> find (fun tv => Nat.eqb (tv_id tv) k) tvs
    end.
Proof.
  revert ls; induction tvs as [|tv tvs IH]; intros ls; cbn.
  - destruct (ls !! k); reflexivity.
  - destruct (Nat.eqb_spec (tv_id tv) k) as [<-|Hne].
    + destruct (ls !! tv_id tv) as [l|] eqn:E.
      * rewrite IH, E. reflexivity.
      * rewrite IH, lookup_insert_eq. reflexivity.
    + destruct (ls !! tv_id tv) as [l|] eqn:E; rewrite IH; [reflexivity|].
      rewrite lookup_insert_ne by exact Hne. reflexivity.
Qed.

(** After [CPULayout::run_on_call_graph], a tensor that had a layout
    descriptor keeps it; a tensor that had none gets the descriptor built
    for the first output with its id, in node order and then slot order,
    if there is one, and still has none otherwise. *)
Theorem run_on_call_graph_lookup (nodes : list Node) (ls : gmap nat Layout) (k : nat) :
  (run_on_call_graph LayoutDescriptor nodes ls).2 !! k
  = match ls !! k with
    | Some l => Some l
    | None => LayoutDescriptor <$> first_output_with_id k nodes
    end.
Proof.
  unfold run_on_call_graph, first_output_with_id. cbn [snd].
  revert ls; induction nodes as [|nd nodes IH]; intros ls; cbn [fold_left map concat].
  - destruct (ls !! k); reflexivity.
  - rewrite IH, layout_outputs_lookup, find_app.
    destruct (ls !! k); [reflexivity|].
    destruct (find _ (node_outputs nd)); reflexivity.
Qed.

End Result.
End CPULayoutResult.

(** ** Broadcast: NONE-mode axes that are not known *)

(** NONE (EXPLICIT) mode, [get_broadcast_axes]: without a third input it
    throws; when the axes mapping is not a constant or the target shape
    input's shape is not static, the axes are reported unknown (false, with
    no axes); a static target shape input of rank other than 1 fails the
    NGRAPH_CHECK. *)
Theorem explicit_broadcast_axes_unknown (oob : nat -> nat) (n : BroadcastBase)
  (out : PartialShape) :
  m_type (bc_mode n) = NONE ->
  (bc_axes_mapping n = None -> get_broadcast_axes oob n out = Err OutOfRange) /\
  (forall p2, bc_axes_mapping n = Some p2 ->
     (forall et s vals, p2 <> Constant et s vals) ->
     get_broadcast_axes oob n out = Ok (false, ∅)) /\
  (forall et2 s2 avals, bc_axes_mapping n = Some (Constant et2 s2 avals) ->
     is_static (producer_pshape (bc_target_shape n)) = false ->
     get_broadcast_axes oob n out = Ok (false, ∅)) /\
  (forall et2 s2 avals t, bc_axes_mapping n = Some (Constant et2 s2 avals) ->
     get_shape (producer_pshape (bc_target_shape n)) = Ok t -> length t <> 1%nat ->
     get_broadcast_axes oob n out = Err NgraphCheckFailure).
Proof.
  intros Hm. unfold get_broadcast_axes, input2. rewrite Hm. split; [|split; [|split]].
  - intros ->. reflexivity.
  - intros p2 -> Hnc. cbn [mbind Result_bind].
    destruct p2; [exfalso; eapply Hnc; reflexivity|reflexivity|reflexivity].
  - intros et2 s2 avals -> Hs. cbn [mbind Result_bind]. rewrite Hs. reflexivity.
  - intros et2 s2 avals t -> Ht Hl. cbn [mbind Result_bind].
    rewrite (get_shape_is_static _ _ Ht), Ht. cbn [mbind Result_bind].
    cbn [mbind Result_bind]. unfold ngraph_check. apply Nat.eqb_neq in Hl. rewrite Hl. reflexivity.
Qed.

(** ** Instances *)

(** EXPLICIT: target rank 3, mapping {1}: the broadcast axes are 0 and 2. *)
Lemma explicit_broadcast_axes_complement_witness :
  exists axes,
    get_broadcast_axes (fun _ => 0%nat)
      (broadcast_node NONE 0 (f32_param [Dim 5]) (i64_const [2; 5; 4]) (Some (i64_const [1])))
      PDynamic = Ok (true, axes) /\
    forall i, i ∈ axes <-> (i < 3)%nat /\ i ∉ [1%nat].
Proof.
  apply (explicit_broadcast_axes_complement (fun _ => 0%nat)
           (broadcast_node NONE 0 (f32_param [Dim 5]) (i64_const [2; 5; 4]) (Some (i64_const [1])))
           PDynamic element.i64 [1%nat] [1] 3); try reflexivity.
  intros k Hk. apply list_elem_of_singleton in Hk. subst k. lia.
Defined.

(** EXPLICIT: target rank 3, mapping {5}: the erase runs past the end. *)
Lemma explicit_broadcast_axes_erase_witness :
  get_broadcast_axes (fun _ => 0%nat)
    (broadcast_node NONE 0 (f32_param [Dim 5]) (i64_const [2; 5; 4]) (Some (i64_const [5])))
    PDynamic = Err UndefinedBehaviour.
Proof.
  apply (proj1 (explicit_broadcast_axes_erase (fun _ => 0%nat)
           (broadcast_node NONE 0 (f32_param [Dim 5]) (i64_const [2; 5; 4]) (Some (i64_const [5])))
           PDynamic element.i64 [1%nat] [5] 3 eq_refl eq_refl eq_refl)).
  exists 5%nat. split; [apply list_elem_of_here|lia].
Defined.

(** EXPLICIT: argument {2}, target {3,2}, mapping {1}: validation succeeds
    with {3,2}, and the mapped target dimension is the argument's. *)
Lemma explicit_validation_mapping_witness :
  validate_and_infer_types (fun _ => 0%nat)
    (broadcast_node NONE 0 (f32_param [Dim 2]) (i64_const [3; 2]) (Some (i64_const [1])))
  = Ok (element.f32, PShape [Dim 3; Dim 2]) /\
  PShape [Dim 3; Dim 2] = of_shape (get_shape_val [3; 2]) /\
  get_shape_val [3; 2] !! 1%nat = [2%nat] !! 0%nat.
Proof.
  assert (Hv : validate_and_infer_types (fun _ => 0%nat)
    (broadcast_node NONE 0 (f32_param [Dim 2]) (i64_const [3; 2]) (Some (i64_const [1])))
    = Ok (element.f32, PShape [Dim 3; Dim 2])) by reflexivity.
  destruct (explicit_validation_mapping (fun _ => 0%nat)
    (broadcast_node NONE 0 (f32_param [Dim 2]) (i64_const [3; 2]) (Some (i64_const [1])))
    element.i64 element.i64 [2%nat] [1%nat] [3; 2] [1] [2%nat] element.f32 (PShape [Dim 3; Dim 2])
    eq_refl eq_refl eq_refl eq_refl eq_refl Hv) as (Hps & _ & _ & Hmap).
  split; [exact Hv|]. split; [exact Hps|].
  exact (proj2 (Hmap 0%nat 1%nat eq_refl)).
Defined.

(** NUMPY: argument {2} and a target built by a Concat of the constant 5:
    validation gives {5} with no compatibility check. *)
Lemma numpy_pdpd_unchecked_target_witness :
  validate_and_infer_types (fun _ => 0%nat)
    (broadcast_node NUMPY 0 (f32_param [Dim 2])
       (Concat element.i64 (PShape [Dim 1]) [i64_const [5]]) None)
  = Ok (element.f32, PShape [Dim 5]).
Proof.
  etransitivity.
  - apply (numpy_pdpd_unchecked_target (fun _ => 0%nat)
             (broadcast_node NUMPY 0 (f32_param [Dim 2])
                (Concat element.i64 (PShape [Dim 1]) [i64_const [5]]) None));
      [reflexivity| |reflexivity|reflexivity].
    right. intros et s vals. discriminate.
  - reflexivity.
Defined.

(** BIDIRECTIONAL: the axes are not computed and evaluation throws. *)
Lemma bidirectional_validates_but_not_evaluable_witness :
  get_broadcast_axes (fun _ => 0%nat)
    (broadcast_node BIDIRECTIONAL 0 (f32_param [Dim 2]) (i64_const [5]) None)
    (PShape [Dim 5]) = Err NgraphError /\
  evaluate (fun _ => 0%nat)
    (broadcast_node BIDIRECTIONAL 0 (f32_param [Dim 2]) (i64_const [5]) None)
    (PShape [Dim 5]) {| ht_et := element.f32; ht_shape := [2%nat] |} eval_state0
  = Err NgraphError.
Proof.
  destruct (bidirectional_validates_but_not_evaluable (fun _ => 0%nat)
    (broadcast_node BIDIRECTIONAL 0 (f32_param [Dim 2]) (i64_const [5]) None)
    (PShape [Dim 5]) {| ht_et := element.f32; ht_shape := [2%nat] |} eval_state0 (@nil nat)
    eq_refl) as (_ & H1 & H2 & _).
  split; assumption.
Defined.

(** NUMPY: argument {3} broadcast to {2,3}: one f32 kernel call, with axis
    0 among the broadcast axes. *)
Lemma numpy_evaluate_kernel_call_witness :
  exists axes,
    evaluate (fun _ => 0%nat)
      (broadcast_node NUMPY 0 (f32_param [Dim 3]) (i64_const [2; 3]) None)
      (PShape [Dim 2; Dim 3]) {| ht_et := element.f32; ht_shape := [3%nat] |} eval_state0
    = Ok (true, {| es_out := {| ht_et := element.f32; ht_shape := [2%nat; 3%nat] |};
                   es_calls := [{| kc_et := element.f32; kc_arg_shape := [3%nat];
                                   kc_out_shape := [2%nat; 3%nat]; kc_axes := axes |}] |}) /\
    0%nat ∈ axes.
Proof.
  destruct (numpy_evaluate_kernel_call (fun _ => 0%nat)
    (broadcast_node NUMPY 0 (f32_param [Dim 3]) (i64_const [2; 3]) None)
    (PShape [Dim 2; Dim 3]) {| ht_et := element.f32; ht_shape := [3%nat] |} eval_state0
    [3%nat] [2%nat; 3%nat] eq_refl eq_refl eq_refl) as (axes & Hev & Hax).
  exists axes. split; [exact Hev|].
  apply Hax. split; [cbn; lia|left; reflexivity].
Defined.

(** NUMPY: a dynamic argument with a static output: false, nothing written. *)
Lemma numpy_evaluate_dynamic_witness :
  evaluate (fun _ => 0%nat)
    (broadcast_node NUMPY 0 (f32_param [DimDynamic]) (i64_const [2; 3]) None)
    (PShape [Dim 2; Dim 3]) {| ht_et := element.f32; ht_shape := [3%nat] |} eval_state0
  = Ok (false, eval_state0).
Proof.
  apply (proj2 (numpy_evaluate_dynamic (fun _ => 0%nat)
    (broadcast_node NUMPY 0 (f32_param [DimDynamic]) (i64_const [2; 3]) None)
    (PShape [Dim 2; Dim 3]) {| ht_et := element.f32; ht_shape := [3%nat] |} eval_state0
    eq_refl)); reflexivity.
Defined.

(** EXPLICIT Broadcast with no delta: the call throws. NUMPY: argument {3}
    broadcast to {2,3}: the adjoint sums the delta over a set containing
    axis 0. *)
Lemma numpy_generate_adjoints_witness :
  generate_adjoints (fun _ => 0%nat)
    (broadcast_node NONE 0 (f32_param [Dim 3]) (i64_const [2; 3]) (Some (i64_const [1])))
    (PShape [Dim 2; Dim 3]) (@nil nat) = Err OutOfRange /\
  exists axes,
    generate_adjoints (fun _ => 0%nat)
      (broadcast_node NUMPY 0 (f32_param [Dim 3]) (i64_const [2; 3]) None)
      (PShape [Dim 2; Dim 3]) [7%nat]
    = Ok (Build_AddDelta nat (f32_param [Dim 3]) 7%nat axes) /\ 0%nat ∈ axes.
Proof.
  split.
  - exact (proj1 (numpy_generate_adjoints (fun _ => 0%nat)
      (broadcast_node NONE 0 (f32_param [Dim 3]) (i64_const [2; 3]) (Some (i64_const [1])))
      (PShape [Dim 2; Dim 3]) (@nil nat))).
  - destruct (proj2 (numpy_generate_adjoints (fun _ => 0%nat)
      (broadcast_node NUMPY 0 (f32_param [Dim 3]) (i64_const [2; 3]) None)
      (PShape [Dim 2; Dim 3]) [7%nat]) eq_refl) as (_ & Hst).
    destruct (Hst [3%nat] [2%nat; 3%nat] 7%nat [] eq_refl eq_refl eq_refl) as (axes & Hg & Hax).
    exists axes. split; [exact Hg|].
    apply Hax. split; [cbn; lia|left; reflexivity].
Defined.

(** EXPLICIT: argument {2,3} with a one-entry mapping: rejected. *)
Lemma explicit_axes_count_mismatch_witness :
  validate_and_infer_types (fun _ => 0%nat)
    (broadcast_node NONE 0 (f32_param [Dim 2; Dim 3]) (i64_const [2; 3]) (Some (i64_const [0])))
  = Err NodeValidationFailure.
Proof.
  apply (explicit_axes_count_mismatch (fun _ => 0%nat)
    (broadcast_node NONE 0 (f32_param [Dim 2; Dim 3]) (i64_const [2; 3]) (Some (i64_const [0])))
    (i64_const [0]) [2%nat; 3%nat] [1%nat]); try reflexivity.
  cbn. lia.
Defined.

(** Squeeze of {?,1,4} by the axes {1}: the output is {?,4}. *)
Lemma squeeze_partially_dynamic_output_witness :
  pre_validate_and_infer_types (squeeze_node [DimDynamic; Dim 1; Dim 4] [1])
  = Ok (element.f32, PShape [DimDynamic; Dim 4]).
Proof.
  etransitivity.
  - apply (squeeze_partially_dynamic_output (squeeze_node [DimDynamic; Dim 1; Dim 4] [1])
             [DimDynamic; Dim 1; Dim 4] [1] [1%nat]); try reflexivity.
    + discriminate.
    + intros a Ha. apply list_elem_of_singleton in Ha. subst a. cbn. lia.
  - reflexivity.
Defined.

(** Squeeze of {1,2} by the axes {0}: one Reshape to {2}. *)
Lemma squeeze_static_reshape_witness :
  exists ps,
    pre_validate_and_infer_types (squeeze_node [Dim 1; Dim 2] [0]) = Ok (element.f32, ps) /\
    decompose_op (squeeze_node [Dim 1; Dim 2] [0]) ps
    = Ok [Reshape (f32_param [Dim 1; Dim 2]) [0%nat; 1%nat] [2%nat]] /\
    shape_size [2%nat] = shape_size [1%nat; 2%nat].
Proof.
  destruct (squeeze_static_reshape (squeeze_node [Dim 1; Dim 2] [0]) [1%nat; 2%nat] [0] [0%nat]
              eq_refl eq_refl eq_refl) as (ps & H1 & H2 & H3).
  { intros a Ha. apply list_elem_of_singleton in Ha. subst a. reflexivity. }
  exists ps. split; [exact H1|]. split; [exact H2|exact H3].
Defined.

(** EXPLICIT with an axes mapping that is not a constant: axes unknown. *)
Lemma explicit_broadcast_axes_unknown_witness :
  get_broadcast_axes (fun _ => 0%nat)
    (broadcast_node NONE 0 (f32_param [Dim 2]) (i64_const [2; 3])
       (Some (OtherOp element.i64 (PShape [Dim 1]))))
    PDynamic = Ok (false, ∅).
Proof.
  apply (proj1 (proj2 (explicit_broadcast_axes_unknown (fun _ => 0%nat)
    (broadcast_node NONE 0 (f32_param [Dim 2]) (i64_const [2; 3])
       (Some (OtherOp element.i64 (PShape [Dim 1]))))
    PDynamic eq_refl)) (OtherOp element.i64 (PShape [Dim 1])) eq_refl).
  intros et s vals. discriminate.
Defined.
